(** * Quizito AI service: the deterministic fallback engine

    A shallow embedding of the fallback content generator, the PDF text
    analyser and the quiz enhancer of [ai/quizito_ai_service.py], with the
    properties of its specification stated over that embedding.

    Conventions of the embedding.
    - Python [str] values are [string]s over ASCII; [str.lower] and friends act
      on the letters [A-Z] / [a-z].
    - Python [int] is [Z]; [float] is the binary64 type [PrimFloat.float], so
      that [num_questions * 0.8] rounds exactly as the interpreter rounds it.
    - A dict that is used as a record (a quiz, a question) is a record whose
      fields are [option]s: [None] is an absent key.  A dict that is used as
      a table keeps its insertion order and is an association list.
    - [np.random.shuffle], [datetime.now], [round] on floats and the iteration
      order of a [set] are not part of the repository: they are parameters. *)

From Stdlib Require Import ZArith Lia Bool List Ascii String Permutation Sorted.
From Stdlib Require Import Numbers.DecimalString.
From Stdlib Require Import Floats.PrimFloat Floats.SpecFloat Floats.FloatOps.
Import ListNotations.

#[local] Set Warnings "-inexact-float".
#[local] Open Scope list_scope.
#[local] Open Scope string_scope.

(** ** Python strings *)

Module PyStr.

Definition code (c : ascii) : nat := nat_of_ascii c.

Definition in_range (lo hi : nat) (c : ascii) : bool :=
  (lo <=? code c)%nat && (code c <=? hi)%nat.

Definition isupper (c : ascii) : bool := in_range 65 90 c.
Definition islower (c : ascii) : bool := in_range 97 122 c.
Definition isalpha (c : ascii) : bool := isupper c || islower c.
Definition isdigit (c : ascii) : bool := in_range 48 57 c.

(** [\w] of the [re] module: letters, digits and the underscore. *)
Definition isword (c : ascii) : bool :=
  isalpha c || isdigit c || (code c =? 95)%nat.

(** [str.isspace]: tab, line feed, vertical tab, form feed, carriage return,
    the four separators 28..31 and the blank. *)
Definition isspace (c : ascii) : bool :=
  in_range 9 13 c || in_range 28 32 c.

Definition lower_char (c : ascii) : ascii :=
  if isupper c then ascii_of_nat (code c + 32) else c.

Definition upper_char (c : ascii) : ascii :=
  if islower c then ascii_of_nat (code c - 32) else c.

Fixpoint map_chars (f : ascii -> ascii) (s : string) : string :=
  match s with
  | EmptyString => EmptyString
  | String c r => String (f c) (map_chars f r)
  end.

(** [s.lower()] *)
Definition lower (s : string) : string := map_chars lower_char s.

(** [s.capitalize()]: first character upper-cased, the rest lower-cased. *)
Definition capitalize (s : string) : string :=
  match s with
  | EmptyString => EmptyString
  | String c r => String (upper_char c) (lower r)
  end.

(** [s.title()]: a letter is upper-cased when the character before it is not a
    letter and lower-cased otherwise. *)
Fixpoint title_from (after_letter : bool) (s : string) : string :=
  match s with
  | EmptyString => EmptyString
  | String c r =>
      String (if after_letter then lower_char c else upper_char c)
             (title_from (isalpha c) r)
  end.

Definition title (s : string) : string := title_from false s.

(** [s.replace(a, b)] for single characters [a] and [b]. *)
Definition replace_char (a b : ascii) (s : string) : string :=
  map_chars (fun c => if Ascii.eqb c a then b else c) s.

(** [s.startswith(p)] *)
Fixpoint startswith (p s : string) : bool :=
  match p, s with
  | EmptyString, _ => true
  | String _ _, EmptyString => false
  | String a p', String b s' => Ascii.eqb a b && startswith p' s'
  end.

(** [p in s]: [p] occurs in [s] as a substring. *)
Fixpoint contains (p s : string) : bool :=
  startswith p s ||
  match s with
  | EmptyString => false
  | String _ r => contains p r
  end.

(** The pieces of [s] between maximal runs of separator characters, as
    [re.split(r'[...]+', s)] returns them: a leading or trailing run leaves an
    empty piece, and the empty string has the single piece [""].  [in_sep]
    says that the previous character was a separator. *)
Fixpoint pieces (sep : ascii -> bool) (in_sep : bool) (s : string) : list string :=
  match s with
  | EmptyString => [EmptyString]
  | String c r =>
      if sep c then
        if in_sep then pieces sep true r
        else EmptyString :: pieces sep true r
      else
        match pieces sep false r with
        | p :: ps => String c p :: ps
        | [] => [String c EmptyString]
        end
  end.

Definition nonempty (s : string) : bool :=
  match s with EmptyString => false | String _ _ => true end.

(** [s.split()]: the maximal runs of characters that are not white space. *)
Definition split (s : string) : list string :=
  filter nonempty (pieces isspace false s).

(** The maximal runs of [\w] characters of [s]. *)
Definition word_runs (s : string) : list string :=
  filter nonempty (pieces (fun c => negb (isword c)) false s).

Fixpoint all_chars (p : ascii -> bool) (s : string) : bool :=
  match s with
  | EmptyString => true
  | String c r => p c && all_chars p r
  end.

(** [s.replace(old, new)] for a non-empty [old]: occurrences are replaced from
    the left and do not overlap.  [skip] counts the characters of an occurrence
    that are still to be dropped. *)
Fixpoint replace_from (old new : string) (skip : nat) (s : string) : string :=
  match s with
  | EmptyString => EmptyString
  | String c r =>
      match skip with
      | S k => replace_from old new k r
      | O =>
          if startswith old s
          then new ++ replace_from old new (String.length old - 1) r
          else String c (replace_from old new 0 r)
      end
  end.

Definition replace (old new s : string) : string := replace_from old new 0 s.

Fixpoint lstrip (s : string) : string :=
  match s with
  | String c r => if isspace c then lstrip r else s
  | EmptyString => EmptyString
  end.

Fixpoint rstrip (s : string) : string :=
  match s with
  | EmptyString => EmptyString
  | String c r =>
      match rstrip r with
      | EmptyString => if isspace c then EmptyString else String c EmptyString
      | r' => String c r'
      end
  end.

(** [s.strip()] *)
Definition strip (s : string) : string := rstrip (lstrip s).

(** [str(n)] for a natural number. *)
Definition of_nat (n : nat) : string := NilEmpty.string_of_uint (Nat.to_uint n).

Definition nl : string := String (ascii_of_nat 10) EmptyString.

Fixpoint mem (s : string) (l : list string) : bool :=
  match l with
  | [] => false
  | x :: r => String.eqb x s || mem s r
  end.

End PyStr.

(** ** Insertion-ordered dicts and list slices *)

Section Dict.
Context {V : Type}.

Fixpoint dict_get (d : list (string * V)) (k : string) : option V :=
  match d with
  | [] => None
  | (k', v) :: r => if String.eqb k' k then Some v else dict_get r k
  end.

(** [d.get(k, dflt)] *)
Definition dict_get_default (d : list (string * V)) (k : string) (dflt : V) : V :=
  match dict_get d k with Some v => v | None => dflt end.

(** [d[k] = v]: an existing key keeps its place, a new key goes last. *)
Fixpoint dict_set (d : list (string * V)) (k : string) (v : V) : list (string * V) :=
  match d with
  | [] => [(k, v)]
  | (k', v') :: r =>
      if String.eqb k' k then (k', v) :: r else (k', v') :: dict_set r k v
  end.
End Dict.

(** [l[:k]] for an integer [k]: a negative [k] counts from the end. *)
Definition slice_to {A : Type} (l : list A) (k : Z) : list A :=
  if (0 <=? k)%Z then firstn (Z.to_nat k) l
  else firstn (List.length l - Z.to_nat (- k)) l.

(** [range(n)] *)
Definition range (n : Z) : list nat := seq 0 (Z.to_nat n).

(** ** Topic classifier *)

Definition categories : list (string * list string) :=
  [ ("technology", ["programming"; "software"; "computer"; "ai"; "machine learning";
                    "data science"; "web"; "mobile"; "cloud"; "cybersecurity"]);
    ("science", ["biology"; "chemistry"; "physics"; "astronomy"; "geology";
                 "environmental"; "medical"; "neuroscience"]);
    ("history", ["historical"; "war"; "civilization"; "ancient"; "medieval";
                 "modern"; "political"; "cultural"]);
    ("mathematics", ["math"; "algebra"; "calculus"; "statistics"; "geometry"]);
    ("business", ["marketing"; "finance"; "management"; "economics"; "entrepreneurship"]) ].

(** [any(keyword in topic_lower for keyword in keywords)] *)
Definition any_keyword (topic_lower : string) (keywords : list string) : bool :=
  existsb (fun keyword => PyStr.contains keyword topic_lower) keywords.

(** The [for category, keywords in categories.items()] loop of
    [categorize_topic], with its [return 'General'] after the loop. *)
Fixpoint categorize_loop (topic_lower : string) (cats : list (string * list string)) : string :=
  match cats with
  | [] => "General"
  | (category, keywords) :: rest =>
      if any_keyword topic_lower keywords
      then PyStr.capitalize category
      else categorize_loop topic_lower rest
  end.

Definition categorize_topic (topic : string) : string :=
  let topic_lower := PyStr.lower topic in
  categorize_loop topic_lower categories.

(** ** Aspect generator *)

Definition aspect_templates : list (string * list string) :=
  [ ("technology", ["fundamentals"; "applications"; "architecture"; "security"; "performance";
                    "implementation"; "best practices"; "trends"; "tools"; "methodologies"]);
    ("science", ["principles"; "theories"; "experiments"; "discoveries"; "applications";
                 "methodologies"; "impact"; "research"; "concepts"; "phenomena"]);
    ("history", ["events"; "figures"; "periods"; "causes"; "consequences"; "themes";
                 "movements"; "cultures"; "developments"; "interpretations"]);
    ("general", ["basics"; "advanced concepts"; "practical applications"; "common mistakes";
                 "best practices"; "tools"; "resources"; "career aspects"; "future trends"]) ].

(** [aspect_templates.get(category, aspect_templates['general'])] *)
Definition templates_of (topic : string) : list string :=
  let category := PyStr.lower (categorize_topic topic) in
  dict_get_default aspect_templates category
    (dict_get_default aspect_templates "general" []).

Definition generate_aspects_from_topic (topic : string) (num_aspects : Z) : list string :=
  let templates := templates_of topic in
  let aspects :=
    map (fun i => nth (i mod List.length templates) templates "" ++ " of " ++ topic)
        (range num_aspects) in
  slice_to aspects num_aspects.

(** ** Question synthesizer *)

Definition points_map : list (string * Z) :=
  [("easy", 100%Z); ("medium", 150%Z); ("hard", 200%Z)].

Definition time_map : list (string * Z) :=
  [("easy", 30%Z); ("medium", 45%Z); ("hard", 60%Z)].

Definition question_templates : list (string -> string -> string) :=
  [ (fun topic aspect => "What is the primary concept of " ++ topic ++ " regarding " ++ aspect ++ "?");
    (fun topic aspect => "Which of the following best describes " ++ aspect ++ " in " ++ topic ++ "?");
    (fun topic aspect => "What is a key characteristic of " ++ topic ++ " related to " ++ aspect ++ "?");
    (fun topic aspect => "How does " ++ aspect ++ " function within " ++ topic ++ "?");
    (fun topic aspect => "What is the significance of " ++ aspect ++ " in understanding " ++ topic ++ "?") ].

(** [options.index(x)]: the position of the first element equal to [x]. *)
Fixpoint list_index (x : string) (l : list string) : option nat :=
  match l with
  | [] => None
  | y :: r => if String.eqb y x then Some 0%nat
              else option_map S (list_index x r)
  end.

(** [l.pop(i)] for an index within the list: the element and the rest. *)
Fixpoint list_pop (i : nat) (l : list string) : option (string * list string) :=
  match l, i with
  | [], _ => None
  | x :: r, O => Some (x, r)
  | x :: r, S k =>
      match list_pop k r with
      | Some (y, r') => Some (y, x :: r')
      | None => None
      end
  end.

(** The distractors of [generate_plausible_options]. *)
Definition distractors_of (correct_aspect topic difficulty : string) : list string :=
  if String.eqb difficulty "easy" then
    [ "A different aspect of " ++ topic;
      "An unrelated concept to " ++ topic;
      "A common misconception about " ++ topic;
      "A basic principle of " ++ topic ]
  else if String.eqb difficulty "medium" then
    [ "A related but incorrect aspect of " ++ topic;
      "A partially correct concept about " ++ topic;
      "An advanced but irrelevant concept in " ++ topic;
      "A historical perspective on " ++ topic ]
  else
    [ "A nuanced but incorrect interpretation of " ++ correct_aspect;
      "A controversial viewpoint on " ++ topic;
      "An advanced technical detail unrelated to " ++ correct_aspect;
      "A theoretical concept that doesn't apply to " ++ correct_aspect ].

(** The body of the [try] block once the list has been shuffled: find the
    correct option and, when it is not first, pop it and insert it at index 0.
    A failing [index] or [pop] would be swallowed by the bare [except], which
    leaves the list as it then is. *)
Definition repin (correct_option : string) (options : list string) : list string :=
  match list_index correct_option options with
  | None => options
  | Some correct_index =>
      if (correct_index =? 0)%nat then options
      else match list_pop correct_index options with
           | Some (x, rest) => x :: rest
           | None => options
           end
  end.

(** [shuffle] is the outcome of [np.random.shuffle] on the list it is given. *)
Definition generate_plausible_options (shuffle : list string -> list string)
    (correct_aspect topic difficulty : string) : list string :=
  let correct_option := "The " ++ correct_aspect in
  let distractors := distractors_of correct_aspect topic difficulty in
  let options := correct_option :: firstn 3 distractors in
  repin correct_option (shuffle options).

Definition explanations (topic aspect : string) : list (string * string) :=
  [ ("easy",
     "This is correct because understanding " ++ aspect ++ " is fundamental to " ++ topic ++ ". "
     ++ "It represents a basic principle that forms the foundation for more advanced concepts.");
    ("medium",
     "The correct answer relates to " ++ aspect ++ ", which is a key component of " ++ topic ++ ". "
     ++ "This aspect is important because it connects various concepts within " ++ topic ++ " "
     ++ "and demonstrates practical applications.");
    ("hard",
     "This answer correctly identifies " ++ aspect ++ ", which involves complex interplay "
     ++ "within " ++ topic ++ ". Understanding this requires knowledge of underlying principles, "
     ++ "contextual factors, and potential implications in advanced scenarios of " ++ topic ++ ".") ].

Definition create_detailed_explanation (topic aspect difficulty : string) : string :=
  dict_get_default (explanations topic aspect) difficulty
    (dict_get_default (explanations topic aspect) "medium" "").

Definition generate_educational_tip (topic aspect : string) : string :=
  let tips :=
    [ "To better understand " ++ aspect ++ " in " ++ topic ++ ", try relating it to practical examples.";
      "Consider how " ++ aspect ++ " connects to other concepts within " ++ topic ++ " for deeper understanding.";
      "Research real-world applications of " ++ aspect ++ " to see how " ++ topic ++ " is used in practice.";
      "Create mind maps linking " ++ aspect ++ " to related concepts in " ++ topic ++ ".";
      "Discuss " ++ aspect ++ " with peers to gain different perspectives on " ++ topic ++ "." ] in
  nth (String.length aspect mod List.length tips) tips "".

Definition generate_learning_objectives (topic : string) (num_objectives : Z) : list string :=
  let objectives :=
    [ "Understand the fundamental concepts of " ++ topic;
      "Identify key components and their relationships within " ++ topic;
      "Apply knowledge of " ++ topic ++ " to solve basic problems";
      "Analyze different aspects of " ++ topic ++ " and their implications";
      "Evaluate the importance and applications of " ++ topic;
      "Synthesize information about " ++ topic ++ " to form comprehensive understanding";
      "Develop critical thinking skills related to " ++ topic;
      "Recognize common misconceptions about " ++ topic ] in
  slice_to objectives (Z.min num_objectives (Z.of_nat (List.length objectives))).

Definition get_educational_level (difficulty : string) : string :=
  dict_get_default
    [("easy", "Beginner/Introductory"); ("medium", "Intermediate"); ("hard", "Advanced/Expert")]
    difficulty "Intermediate".

(** ** Frequency tables *)

(** The counting loop shared by the two keyword extractors:
    [word_counts[word] = word_counts.get(word, 0) + 1] for every word that is
    not a common word. *)
Definition count_words (common_words words : list string) : list (string * Z) :=
  fold_left
    (fun word_counts word =>
       if PyStr.mem word common_words then word_counts
       else dict_set word_counts word (dict_get_default word_counts word 0 + 1)%Z)
    words [].

(** [sorted(items, key=lambda x: x[1], reverse=True)].  The sort is stable, also
    with [reverse=True]: items with equal counts keep their order.  [insert_desc]
    puts an item in front of the first item whose count is not greater. *)
Fixpoint insert_desc (x : string * Z) (l : list (string * Z)) : list (string * Z) :=
  match l with
  | [] => [x]
  | y :: r => if (snd x <? snd y)%Z then y :: insert_desc x r else x :: y :: r
  end.

Definition sorted_desc (items : list (string * Z)) : list (string * Z) :=
  fold_right insert_desc [] items.

(** [re.findall(r'\b[a-zA-Z]{4,}\b', s)]: a match starts and ends at a word
    boundary and holds letters only, so it is a whole run of [\w] characters,
    made of at least four letters. *)
Definition findall_words4 (s : string) : list string :=
  filter (fun w => PyStr.all_chars PyStr.isalpha w && (4 <=? String.length w)%nat)
         (PyStr.word_runs s).

Definition extract_keywords_from_context (context : string) : list string :=
  if negb (PyStr.nonempty context) then []
  else
    let words := findall_words4 (PyStr.lower context) in
    let common_words :=
      ["this"; "that"; "with"; "from"; "have"; "were"; "their"; "which"; "about"] in
    let word_counts := count_words common_words words in
    let sorted_words := sorted_desc word_counts in
    map (fun word => PyStr.title (fst word)) (firstn 10 sorted_words).

(** ** Numbers *)

(** [float(n)]: the binary64 number nearest to the integer [n]. *)
Definition float_of_int (n : Z) : float :=
  SF2Prim (binary_normalize prec emax n 0 false).

(** A value that is an [int] on one path and a [float] on another. *)
Inductive pynum : Type :=
| PInt (z : Z)
| PFloat (f : float).

(** [a / b] for two integers with [b] not zero (operands below [2^53], as the
    lengths of strings and lists are). *)
Definition truediv (a b : Z) : float :=
  PrimFloat.div (float_of_int a) (float_of_int b).

(** [x > k] for an integer literal [k]. *)
Definition num_gt (x : pynum) (k : Z) : bool :=
  match x with
  | PInt z => (k <? z)%Z
  | PFloat f => PrimFloat.ltb (float_of_int k) f
  end.

(** ** Questions and quizzes *)

Module Question.
Record t : Type := mk {
  question : option string;
  type : option string;
  options : option (list string);
  correctAnswer : option Z;
  explanation : option string;
  points : option Z;
  timeLimit : option Z;
  difficulty : option string;
  category : option string;
  tags : option (list string);
  educationalTip : option string
}.

Definition set_explanation (q : t) (e : string) : t :=
  mk (question q) (type q) (options q) (correctAnswer q) (Some e) (points q)
     (timeLimit q) (difficulty q) (category q) (tags q) (educationalTip q).

Definition set_level (q : t) (d : string) (p tl : Z) : t :=
  mk (question q) (type q) (options q) (correctAnswer q) (explanation q) (Some p)
     (Some tl) (Some d) (category q) (tags q) (educationalTip q).

Definition set_tags (q : t) (l : list string) : t :=
  mk (question q) (type q) (options q) (correctAnswer q) (explanation q) (points q)
     (timeLimit q) (difficulty q) (category q) (Some l) (educationalTip q).

Definition set_educationalTip (q : t) (tip : string) : t :=
  mk (question q) (type q) (options q) (correctAnswer q) (explanation q) (points q)
     (timeLimit q) (difficulty q) (category q) (tags q) (Some tip).
End Question.

(** The values found in a quiz's [metadata] dict. *)
Inductive meta_value : Type :=
| MStr (s : string)
| MInt (z : Z)
| MBool (b : bool)
| MList (l : list string).

Module Quiz.
Record t : Type := mk {
  title : option string;
  description : option string;
  category : option string;
  difficulty : option string;
  estimatedTime : option float;
  totalPoints : option Z;
  learningObjectives : option (list string);
  questions : option (list Question.t);
  tags : option (list string);
  metadata : option (list (string * meta_value))
}.

Definition set_title (z : t) (s : string) : t :=
  mk (Some s) (description z) (category z) (difficulty z) (estimatedTime z)
     (totalPoints z) (learningObjectives z) (questions z) (tags z) (metadata z).

Definition set_description (z : t) (s : string) : t :=
  mk (title z) (Some s) (category z) (difficulty z) (estimatedTime z)
     (totalPoints z) (learningObjectives z) (questions z) (tags z) (metadata z).

Definition set_learningObjectives (z : t) (l : list string) : t :=
  mk (title z) (description z) (category z) (difficulty z) (estimatedTime z)
     (totalPoints z) (Some l) (questions z) (tags z) (metadata z).

Definition set_questions (z : t) (qs : option (list Question.t)) : t :=
  mk (title z) (description z) (category z) (difficulty z) (estimatedTime z)
     (totalPoints z) (learningObjectives z) qs (tags z) (metadata z).

Definition set_metadata (z : t) (m : list (string * meta_value)) : t :=
  mk (title z) (description z) (category z) (difficulty z) (estimatedTime z)
     (totalPoints z) (learningObjectives z) (questions z) (tags z) (Some m).

(** [quiz.get('questions', [])] *)
Definition get_questions (z : t) : list Question.t :=
  match questions z with Some qs => qs | None => [] end.
End Quiz.

(** [x.get(key, dflt)] on an optional field. *)
Definition get_or {A : Type} (field : option A) (dflt : A) : A :=
  match field with Some v => v | None => dflt end.

(** [s.lower().replace(' ', '-')] *)
Definition slug (s : string) : string :=
  PyStr.replace_char " " "-" (PyStr.lower s).

(** ** Quiz assembler *)

(** The dict appended by pass [i] of the loop of
    [generate_enhanced_fallback_quiz]. *)
Definition fallback_question (shuffle : list string -> list string)
    (topic difficulty quiz_type : string) (aspects : list string) (i : nat) : Question.t :=
  let aspect := nth (i mod List.length aspects) aspects "" in
  let template :=
    nth (i mod List.length question_templates) question_templates (fun _ _ => "") in
  let question_text := template topic aspect in
  let options := generate_plausible_options shuffle aspect topic difficulty in
  {| Question.question := Some question_text;
     Question.type := Some quiz_type;
     Question.options := Some options;
     Question.correctAnswer := Some 0%Z;
     Question.explanation := Some (create_detailed_explanation topic aspect difficulty);
     Question.points := Some (dict_get_default points_map difficulty 100%Z);
     Question.timeLimit := Some (dict_get_default time_map difficulty 30%Z);
     Question.difficulty := Some difficulty;
     Question.category := Some (categorize_topic topic);
     Question.tags := Some [slug topic; slug aspect; difficulty];
     Question.educationalTip := Some (generate_educational_tip topic aspect) |}.

(** [rng i] is the outcome of the shuffle of pass [i]. *)
Definition generate_enhanced_fallback_quiz (rng : nat -> list string -> list string)
    (topic difficulty : string) (num_questions : Z) (quiz_type context : string) : Quiz.t :=
  let keywords :=
    if PyStr.nonempty context then extract_keywords_from_context context else [] in
  let aspects := generate_aspects_from_topic topic num_questions in
  let questions :=
    map (fun i => fallback_question (rng i) topic difficulty quiz_type aspects i)
        (range num_questions) in
  {| Quiz.title := Some ("Comprehensive Quiz: " ++ topic);
     Quiz.description :=
       Some ("A detailed quiz covering various aspects of " ++ topic ++ ". " ++ PyStr.nl
             ++ "        This quiz is designed to test understanding at " ++ difficulty
             ++ " level and covers " ++ PyStr.nl
             ++ "        key concepts, applications, and principles.");
     Quiz.category := Some (categorize_topic topic);
     Quiz.difficulty := Some difficulty;
     Quiz.estimatedTime := Some (PrimFloat.mul (float_of_int num_questions) 0.8%float);
     Quiz.totalPoints := Some (num_questions * dict_get_default points_map difficulty 100)%Z;
     Quiz.learningObjectives := Some (generate_learning_objectives topic num_questions);
     Quiz.questions := Some questions;
     Quiz.tags := Some ([slug topic; difficulty; "educational"; "comprehensive"] ++ keywords)%list;
     Quiz.metadata :=
       Some [ ("educationalLevel", MStr (get_educational_level difficulty));
              ("prerequisites",
               MStr (if PyStr.mem difficulty ["medium"; "hard"]
                     then "Basic understanding of " ++ topic else "None"));
              ("targetAudience", MStr "Students, professionals, and lifelong learners");
              ("generationMethod", MStr "enhanced_fallback");
              ("keywordsUsed", MList (firstn 5 keywords)) ] |}.

(** ** Text analyzer *)

(** [re.findall(r'\b[A-Z][a-z]{3,}\b', text)]: a match starts and ends at a
    word boundary, so it is a whole run of [\w] characters; the run is a
    capital letter followed by at least three small letters. *)
Definition is_capitalized_word (w : string) : bool :=
  match w with
  | EmptyString => false
  | String c r =>
      PyStr.isupper c && PyStr.all_chars PyStr.islower r && (3 <=? String.length r)%nat
  end.

Definition findall_capitalized (text : string) : list string :=
  filter is_capitalized_word (PyStr.word_runs text).

Definition topic_common_words : list string :=
  ["This"; "That"; "With"; "From"; "Have"; "Were"; "Their"; "Which"; "About"; "There"].

Definition extract_potential_topics (text : string) : list string :=
  let words := findall_capitalized text in
  let word_counts := count_words topic_common_words words in
  let sorted_words := sorted_desc word_counts in
  map fst (firstn 10 sorted_words).

(** [any(word in text_lower for word in words)] *)
Definition any_in (text_lower : string) (words : list string) : bool :=
  existsb (fun word => PyStr.contains word text_lower) words.

Definition determine_content_type (text : string) : string :=
  let text_lower := PyStr.lower text in
  if any_in text_lower ["algorithm"; "code"; "programming"; "software"] then
    "Technology/Programming"
  else if any_in text_lower ["experiment"; "research"; "study"; "scientific"] then
    "Scientific/Research"
  else if any_in text_lower ["historical"; "century"; "war"; "civilization"] then
    "Historical"
  else if any_in text_lower ["business"; "market"; "financial"; "economic"] then
    "Business/Economics"
  else "General/Educational".

Definition technical_terms : list string :=
  ["algorithm"; "protocol"; "architecture"; "framework"; "syntax";
   "theorem"; "hypothesis"; "methodology"; "quantitative"; "analysis"].

Definition estimate_technical_level (text : string) : string :=
  let count :=
    Z.of_nat (List.length
      (filter (fun term => PyStr.contains term (PyStr.lower text)) technical_terms)) in
  if (10 <? count)%Z then "Advanced Technical"
  else if (5 <? count)%Z then "Intermediate Technical"
  else if (0 <? count)%Z then "Basic Technical"
  else "Non-Technical".

(** The separators of [re.split(r'[.!?]+', text)]. *)
Definition is_sentence_end (c : ascii) : bool :=
  Ascii.eqb c "." || Ascii.eqb c "!" || Ascii.eqb c "?".

Definition split_sentences (text : string) : list string :=
  PyStr.pieces is_sentence_end false text.

Definition head_isupper (word : string) : bool :=
  match word with
  | EmptyString => false
  | String c _ => PyStr.isupper c
  end.

(** The inner loop of [extract_key_themes] over the words of one sentence;
    [prev] is [words[i-1]], absent when [i] is 0. *)
Fixpoint themes_of_words (prev : option string) (words : list string) : list string :=
  match words with
  | [] => []
  | word :: rest =>
      let keep :=
        head_isupper word && (3 <? String.length word)%nat &&
        match prev with
        | None => false
        | Some before => negb (PyStr.mem before ["the"; "a"; "an"])
        end in
      ((if keep then [word] else []) ++ themes_of_words (Some word) rest)%list
  end.

Definition len {A : Type} (l : list A) : Z := Z.of_nat (List.length l).

Record Statistics : Type := mkStatistics {
  totalPages : Z;
  totalWords : Z;
  totalSentences : Z;
  averageWordLength : pynum;
  averageSentenceLength : pynum
}.

Record ContentAnalysis : Type := mkContentAnalysis {
  content_type : string;
  complexity : string;
  technicalLevel : string
}.

Record PdfAnalysis : Type := mkPdfAnalysis {
  statistics : Statistics;
  contentAnalysis : ContentAnalysis;
  potentialQuizTopics : list string;
  keyThemes : list string
}.

Section Analyzer.

(** [round(x, 2)] on a float, and [list(set(l))], whose order is not fixed. *)
Variable round2 : float -> float.
Variable set_order : list string -> list string.

Definition py_round2 (x : pynum) : pynum :=
  match x with
  | PInt z => PInt z
  | PFloat f => PFloat (round2 f)
  end.

Definition extract_key_themes (text : string) : list string :=
  let sentences := split_sentences text in
  let themes :=
    flat_map
      (fun sentence =>
         let words := PyStr.split sentence in
         if (5 <? List.length words)%nat then themes_of_words None words else [])
      (firstn 50 sentences) in
  firstn 10 (set_order themes).

Definition analyze_pdf_content (text : string) (page_texts : list string) : PdfAnalysis :=
  let words := PyStr.split text in
  let sentences := split_sentences text in
  let potential_topics := extract_potential_topics text in
  let avg_word_length :=
    match words with
    | [] => PInt 0
    | _ => PFloat (truediv (fold_right Z.add 0%Z (map (fun word => Z.of_nat (String.length word)) words))
                           (len words))
    end in
  let avg_sentence_length :=
    match sentences with
    | [] => PInt 0
    | _ => PFloat (truediv (len words) (len sentences))
    end in
  let content_type := determine_content_type text in
  {| statistics :=
       {| totalPages := len page_texts;
          totalWords := len words;
          totalSentences := len sentences;
          averageWordLength := py_round2 avg_word_length;
          averageSentenceLength := py_round2 avg_sentence_length |};
     contentAnalysis :=
       {| content_type := content_type;
          complexity :=
            if num_gt avg_word_length 5 && num_gt avg_sentence_length 15 then "high"
            else if num_gt avg_word_length 4 then "medium"
            else "low";
          technicalLevel := estimate_technical_level text |};
     potentialQuizTopics := firstn 5 potential_topics;
     keyThemes := firstn 5 (extract_key_themes text) |}.

End Analyzer.

(** ** Quiz enhancer *)

(** [enumerate(l)] *)
Definition enumerate {A : Type} (l : list A) : list (nat * A) :=
  combine (seq 0 (List.length l)) l.

Definition enhance_explanation (explanation : string) : string :=
  if (List.length (PyStr.split explanation) <? 10)%nat then
    explanation ++ " This understanding is crucial for building a comprehensive knowledge base and applying concepts in practical scenarios."
  else explanation.

(** One pass of the question loop of [enhance_quiz_comprehensively]; [title]
    and [category] are the quiz's fields at that point. *)
Definition enhance_question (title category : option string) (iq : nat * Question.t) : Question.t :=
  let (i, question) := iq in
  let question :=
    match Question.educationalTip question with
    | None =>
        Question.set_educationalTip question
          (generate_educational_tip (get_or title "topic") ("concept " ++ PyStr.of_nat (i + 1)))
    | Some _ => question
    end in
  let question :=
    match Question.tags question with
    | None =>
        Question.set_tags question
          [ PyStr.lower (get_or category "general");
            get_or (Question.difficulty question) "medium";
            "question_" ++ PyStr.of_nat (i + 1) ]
    | Some _ => question
    end in
  match Question.explanation question with
  | Some explanation => Question.set_explanation question (enhance_explanation explanation)
  | None => question
  end.

(** [now] is what [datetime.now().isoformat()] returns. *)
Definition enhance_quiz_comprehensively (now : string) (quiz : Quiz.t) : Quiz.t :=
  let enhanced := quiz in
  let enhanced :=
    match Quiz.title enhanced with
    | Some title => Quiz.set_title enhanced ("Enhanced: " ++ title)
    | None => enhanced
    end in
  let enhanced :=
    match Quiz.description enhanced with
    | Some description =>
        Quiz.set_description enhanced
          (description ++ PyStr.nl ++ PyStr.nl
           ++ "This quiz has been enhanced with additional explanations, varied difficulty levels, and educational tips.")
    | None => enhanced
    end in
  let enhanced :=
    match Quiz.learningObjectives enhanced with
    | None =>
        let topic :=
          PyStr.strip (PyStr.replace "quiz" "" (PyStr.replace "Quiz" "" (get_or (Quiz.title enhanced) ""))) in
        Quiz.set_learningObjectives enhanced (generate_learning_objectives topic 3)
    | Some _ => enhanced
    end in
  let enhanced :=
    Quiz.set_questions enhanced
      (option_map
         (fun questions =>
            map (enhance_question (Quiz.title enhanced) (Quiz.category enhanced))
                (enumerate questions))
         (Quiz.questions enhanced)) in
  let metadata := get_or (Quiz.metadata enhanced) [] in
  let metadata := dict_set metadata "comprehensivelyEnhanced" (MBool true) in
  let metadata := dict_set metadata "enhancementDate" (MStr now) in
  let metadata := dict_set metadata "totalEnhancements" (MInt (len (Quiz.get_questions enhanced))) in
  let metadata := dict_set metadata "aiEnhanced" (MBool true) in
  Quiz.set_metadata enhanced metadata.

(** The question loop of the ["explanations"] mode: an explanation is written
    when the key is absent or its value is the empty string. *)
Definition add_explanation (title : option string) (question : Question.t) : Question.t :=
  match Question.explanation question with
  | Some (String _ _) => question
  | _ =>
      Question.set_explanation question
        (create_detailed_explanation (get_or title "topic") "key concept"
           (get_or (Question.difficulty question) "medium"))
  end.

(** The question loop of the ["difficulty"] mode. *)
Definition vary_difficulty (iq : nat * Question.t) : Question.t :=
  let (i, question) := iq in
  if (i mod 3 =? 0)%nat then Question.set_level question "easy" 100 30
  else if (i mod 3 =? 1)%nat then Question.set_level question "medium" 150 45
  else Question.set_level question "hard" 200 60.

(** [clock k] is what the call number [k] of [datetime.now().isoformat()]
    returns during one enhancement. *)
Definition enhance_quiz_content (clock : nat -> string) (quiz : Quiz.t)
    (enhancement_type : string) : Quiz.t :=
  let enhanced := quiz in
  let (enhanced, calls) :=
    if String.eqb enhancement_type "explanations" then
      (Quiz.set_questions enhanced
         (option_map (map (add_explanation (Quiz.title quiz))) (Quiz.questions enhanced)),
       0%nat)
    else if String.eqb enhancement_type "difficulty" then
      (Quiz.set_questions enhanced
         (option_map (fun questions => map vary_difficulty (enumerate questions))
                     (Quiz.questions enhanced)),
       0%nat)
    else if String.eqb enhancement_type "comprehensive" then
      (enhance_quiz_comprehensively (clock 0%nat) quiz, 1%nat)
    else (enhanced, 0%nat) in
  let metadata := get_or (Quiz.metadata enhanced) [] in
  let metadata := dict_set metadata "enhancedAt" (MStr (clock calls)) in
  let metadata := dict_set metadata "enhancementType" (MStr enhancement_type) in
  let metadata := dict_set metadata "enhancementProvider" (MStr "quizito_ai") in
  Quiz.set_metadata enhanced metadata.

(** ** Question generator *)

(** The conditional
    [100 if difficulty == 'easy' else 150 if difficulty == 'medium' else 200]
    of [generate_questions_fallback], [generate_questions_with_openai] and
    [enhance_quiz_data]. *)
Definition points_for (difficulty : string) : Z :=
  if String.eqb difficulty "easy" then 100%Z
  else if String.eqb difficulty "medium" then 150%Z
  else 200%Z.

(** [30 if difficulty == 'easy' else 45 if difficulty == 'medium' else 60] *)
Definition time_for (difficulty : string) : Z :=
  if String.eqb difficulty "easy" then 30%Z
  else if String.eqb difficulty "medium" then 45%Z
  else 60%Z.

(** The dict built by pass [i] of the loop of [generate_questions_fallback]. *)
Definition plain_question (topic question_type difficulty : string)
    (aspects : list string) (i : nat) : Question.t :=
  let aspect := nth (i mod List.length aspects) aspects "" in
  {| Question.question := Some ("What is important to know about " ++ aspect ++ " in " ++ topic ++ "?");
     Question.type := Some question_type;
     Question.options :=
       Some [ "Key concept A about " ++ aspect;
              "Key concept B about " ++ aspect;
              "Key concept C about " ++ aspect;
              "Key concept D about " ++ aspect ];
     Question.correctAnswer := Some 0%Z;
     Question.explanation :=
       Some ("This covers fundamental knowledge about " ++ aspect ++ " in " ++ topic ++ ".");
     Question.points := Some (points_for difficulty);
     Question.timeLimit := Some (time_for difficulty);
     Question.difficulty := Some difficulty;
     Question.category := Some (categorize_topic topic);
     Question.tags := None;
     Question.educationalTip := None |}.

Definition generate_questions_fallback (topic question_type : string) (count : Z)
    (difficulty : string) : list Question.t :=
  let aspects := generate_aspects_from_topic topic count in
  map (plain_question topic question_type difficulty aspects) (range count).

(** ** Post-processing of a provider's quiz *)

(** One pass of the question loop of [enhance_quiz_data]: [setdefault] writes
    a key only when it is absent. *)
Definition complete_question (topic difficulty quiz_type : string)
    (iq : nat * Question.t) : Question.t :=
  let (i, question) := iq in
  {| Question.question := Question.question question;
     Question.type := Some (get_or (Question.type question) quiz_type);
     Question.options := Question.options question;
     Question.correctAnswer := Question.correctAnswer question;
     Question.explanation :=
       Some (get_or (Question.explanation question)
                    "Refer to course materials for detailed explanation.");
     Question.points := Some (get_or (Question.points question) (points_for difficulty));
     Question.timeLimit := Some (get_or (Question.timeLimit question) (time_for difficulty));
     Question.difficulty := Some (get_or (Question.difficulty question) difficulty);
     Question.category := Question.category question;
     Question.tags := Question.tags question;
     Question.educationalTip :=
       Some (get_or (Question.educationalTip question)
                    (generate_educational_tip topic ("concept " ++ PyStr.of_nat (i + 1)))) |}.

(** [sum(q.get('points', 100) for q in questions)] *)
Definition sum_points_or_100 (questions : list Question.t) : Z :=
  fold_left Z.add (map (fun q => get_or (Question.points q) 100%Z) questions) 0%Z.

(** [now] is what [datetime.now().isoformat()] returns. *)
Definition enhance_quiz_data (now : string) (quiz_data : Quiz.t)
    (topic difficulty : string) (num_questions : Z) (quiz_type : string) : Quiz.t :=
  let metadata := get_or (Quiz.metadata quiz_data) [] in
  let metadata := dict_set metadata "generatedAt" (MStr now) in
  let metadata := dict_set metadata "totalQuestions" (MInt (len (Quiz.get_questions quiz_data))) in
  let metadata := dict_set metadata "aiGenerated" (MBool true) in
  let metadata := dict_set metadata "enhancementLevel" (MStr "full") in
  {| Quiz.title := Some (get_or (Quiz.title quiz_data) (topic ++ " Quiz"));
     Quiz.description :=
       Some (get_or (Quiz.description quiz_data) ("Test your knowledge about " ++ topic));
     Quiz.category := Some (get_or (Quiz.category quiz_data) (categorize_topic topic));
     Quiz.difficulty := Some (get_or (Quiz.difficulty quiz_data) difficulty);
     Quiz.estimatedTime :=
       Some (get_or (Quiz.estimatedTime quiz_data)
                    (PrimFloat.mul (float_of_int num_questions) 0.8%float));
     Quiz.totalPoints :=
       Some (get_or (Quiz.totalPoints quiz_data)
                    (sum_points_or_100 (Quiz.get_questions quiz_data)));
     Quiz.learningObjectives := Quiz.learningObjectives quiz_data;
     Quiz.questions :=
       option_map
         (fun questions =>
            map (complete_question topic difficulty quiz_type) (enumerate questions))
         (Quiz.questions quiz_data);
     Quiz.tags := Quiz.tags quiz_data;
     Quiz.metadata := Some metadata |}.

(** ** Request handlers *)

(** What a handler returns: the data of a success, or a status and an error
    message. *)
Inductive response (A : Type) : Type :=
| Success (message : string) (data : A)
| Failure (status : Z) (error : string).

Arguments Success {A} message data.
Arguments Failure {A} status error.



(** The JSON body of a [/generate-quiz] request. *)
Module QuizRequest.
Record t : Type := mk {
  topic : option string;
  difficulty : option string;
  numQuestions : option Z;
  quizType : option string;
  pdfText : option string
}.
End QuizRequest.



(** The OpenAI collaborator of [generate_questions_with_openai]: the parsed
    JSON array of the answer; [None] when the call or the parsing raises or no
    array is found. *)
Definition questions_provider : Type :=
  string -> string -> Z -> string -> string -> option (list Question.t).

Definition generate_questions_with_openai (client : questions_provider)
    (topic question_type : string) (count : Z) (difficulty context : string)
    : option (list Question.t) :=
  match client topic question_type count difficulty context with
  | Some questions =>
      Some (map (fun q => Question.set_level q difficulty
                            (points_for difficulty) (time_for difficulty))
                questions)
  | None => None
  end.

(** The JSON body of a [/generate-questions] request. *)
Module QuestionsRequest.
Record t : Type := mk {
  topic : option string;
  type : option string;
  count : option Z;
  difficulty : option string;
  context : option string
}.
End QuestionsRequest.

Module QuestionsData.
Record t : Type := mk {
  questions : list Question.t;
  metadata : list (string * meta_value)
}.
End QuestionsData.

(** The handler of [/generate-questions]. *)
Definition generate_questions (client : option questions_provider) (now : string)
    (data : option QuestionsRequest.t) : response QuestionsData.t :=
  match data with
  | None => Failure 400 "No data provided"
  | Some data =>
      let topic := PyStr.strip (get_or (QuestionsRequest.topic data) "") in
      let question_type := get_or (QuestionsRequest.type data) "multiple-choice" in
      let count := Z.min (get_or (QuestionsRequest.count data) 5%Z) 20%Z in
      let difficulty := get_or (QuestionsRequest.difficulty data) "medium" in
      let context := get_or (QuestionsRequest.context data) "" in
      if negb (PyStr.nonempty topic) then Failure 400 "Topic is required"
      else
        let fallback :=
          (generate_questions_fallback topic question_type count difficulty, "fallback") in
        let (questions, source) :=
          match client with
          | Some client =>
              match generate_questions_with_openai client topic question_type count
                      difficulty context with
              | Some questions => (questions, "openai")
              | None => fallback
              end
          | None => fallback
          end in
        Success ("Generated " ++ PyStr.of_nat (List.length questions) ++ " questions")
          {| QuestionsData.questions := questions;
             QuestionsData.metadata :=
               [ ("topic", MStr topic);
                 ("type", MStr question_type);
                 ("count", MInt (len questions));
                 ("difficulty", MStr difficulty);
                 ("source", MStr source);
                 ("generatedAt", MStr now) ] |}
  end.

(** ** Topic advisor *)

Module Advisor.

Record Resource : Type := mkResource {
  type : string;
  title : string;
  description : string;
  platform : string
}.

Record LearningPotential : Type := mkLearningPotential {
  knowledgeDepth : string;
  skillDevelopment : list string;
  practicalApplications : list string;
  complexityLevel : string
}.

Record TopicAnalysis : Type := mkTopicAnalysis {
  topic : string;
  category : string;
  recommendedDifficulty : string;
  suggestedQuestionCounts : list (string * Z);
  keyAreas : list string;
  suggestedQuestionTypes : list string;
  estimatedQuizTime : Z;
  prerequisites : string;
  targetAudience : list string;
  learningPotential : LearningPotential;
  commonMisconceptions : list string;
  resources : list Resource
}.

End Advisor.

Definition audiences : list (string * list string) :=
  [ ("technology", ["Students"; "Developers"; "IT Professionals"; "Tech Enthusiasts"]);
    ("science", ["Students"; "Researchers"; "Educators"; "Science Enthusiasts"]);
    ("history", ["Students"; "Historians"; "Educators"; "History Buffs"]);
    ("business", ["Students"; "Professionals"; "Entrepreneurs"; "Managers"]);
    ("general", ["Students"; "General Public"; "Lifelong Learners"]) ].

Definition determine_target_audience (category : string) : list string :=
  dict_get_default audiences (PyStr.lower category)
    (dict_get_default audiences "general" []).

Definition estimate_practical_applications (topic : string) : list string :=
  let apps :=
    [ "Applying " ++ topic ++ " in real-world scenarios";
      "Problem-solving using " ++ topic ++ " principles";
      "Implementing " ++ topic ++ " in projects";
      "Analyzing situations with " ++ topic ++ " framework" ] in
  firstn 3 apps.

Definition estimate_learning_potential (topic context : string) : Advisor.LearningPotential :=
  {| Advisor.knowledgeDepth :=
       if (2 <? List.length (PyStr.split topic))%nat then "High" else "Medium";
     Advisor.skillDevelopment := ["Critical Thinking"; "Analysis"; "Application"];
     Advisor.practicalApplications := estimate_practical_applications topic;
     Advisor.complexityLevel := "Moderate" |}.

Definition generate_common_misconceptions (topic : string) : list string :=
  [ "Misunderstanding the basic principles of " ++ topic;
    "Confusing " ++ topic ++ " with related but different concepts";
    "Overestimating or underestimating the importance of " ++ topic;
    "Incorrect applications of " ++ topic ++ " in practice" ].

Definition suggest_resources (topic category : string) : list Advisor.Resource :=
  let resources :=
    [ {| Advisor.type := "Online Course";
         Advisor.title := "Introduction to " ++ topic;
         Advisor.description := "Comprehensive course covering " ++ topic ++ " fundamentals";
         Advisor.platform := "Coursera/edX" |};
      {| Advisor.type := "Book";
         Advisor.title := "The Complete Guide to " ++ topic;
         Advisor.description := "In-depth exploration of " ++ topic;
         Advisor.platform := "Amazon/Bookstore" |} ] in
  if String.eqb (PyStr.lower category) "technology" then
    (resources ++
     [ {| Advisor.type := "Documentation";
          Advisor.title := "Official " ++ topic ++ " Documentation";
          Advisor.description := "Technical reference and guides";
          Advisor.platform := "Official Website" |} ])%list
  else resources.

Definition analyze_topic_content (topic context : string) : Advisor.TopicAnalysis :=
  let category := categorize_topic topic in
  {| Advisor.topic := topic;
     Advisor.category := category;
     Advisor.recommendedDifficulty := "medium";
     Advisor.suggestedQuestionCounts := [("easy", 3%Z); ("medium", 5%Z); ("hard", 2%Z)];
     Advisor.keyAreas := generate_aspects_from_topic topic 5;
     Advisor.suggestedQuestionTypes := ["multiple-choice"; "true-false"; "fill-blank"];
     Advisor.estimatedQuizTime := 15%Z;
     Advisor.prerequisites := "Basic understanding of " ++ PyStr.lower category ++ " concepts";
     Advisor.targetAudience := determine_target_audience category;
     Advisor.learningPotential := estimate_learning_potential topic context;
     Advisor.commonMisconceptions := generate_common_misconceptions topic;
     Advisor.resources := suggest_resources topic category |}.

(** ** Specification predicates *)

(** [p] occurs in [s] as a substring. *)
Definition occurs_in (p s : string) : Prop :=
  exists a b : string, s = a ++ p ++ b.

(** Some keyword of the list occurs in the lower-cased topic. *)
Definition keyword_match (topic_lower : string) (keywords : list string) : Prop :=
  exists keyword, In keyword keywords /\ occurs_in keyword topic_lower.

Definition category_names : list string :=
  ["Technology"; "Science"; "History"; "Mathematics"; "Business"; "General"].

(** The sum of the points of a list of questions, when each has points. *)
Fixpoint sum_points (questions : list Question.t) : option Z :=
  match questions with
  | [] => Some 0%Z
  | q :: rest =>
      match Question.points q, sum_points rest with
      | Some p, Some s => Some (p + s)%Z
      | _, _ => None
      end
  end.

(** The quiz has a [totalPoints], every question has points, and the two
    agree. *)
Definition total_points_agree (quiz : Quiz.t) : Prop :=
  exists total,
    Quiz.totalPoints quiz = Some total /\
    sum_points (Quiz.get_questions quiz) = Some total.

(** How often [w] occurs in a list of words. *)
Definition occurrences (words : list string) (w : string) : Z :=
  Z.of_nat (count_occ string_dec words w).

(** The order of a frequency table sorted by descending count. *)
Definition desc (x y : string * Z) : Prop := (snd y <= snd x)%Z.

(** [x] stands before [y] in the list [l]. *)
Definition before {A : Type} (x y : A) (l : list A) : Prop :=
  exists l1 l2 l3, l = (l1 ++ x :: l2 ++ y :: l3)%list.

(** * Properties *)

(** ** Strings *)

Lemma startswith_spec (p s : string) :
  PyStr.startswith p s = true <-> exists b, s = p ++ b.
Proof.
  revert s; induction p as [|a p IH]; intros s; simpl.
  - split; [intros _; now exists s | reflexivity].
  - destruct s as [|c s].
    + split; [discriminate | intros [b Hb]; discriminate].
    + rewrite andb_true_iff, IH, Ascii.eqb_eq. split.
      * intros [-> [b ->]]. now exists b.
      * intros [b Hb]. injection Hb as -> ->. split; [reflexivity | now exists b].
Qed.

Lemma contains_unfold (p s : string) :
  PyStr.contains p s =
  PyStr.startswith p s || match s with EmptyString => false | String _ r => PyStr.contains p r end.
Proof. destruct s; reflexivity. Qed.

Lemma contains_spec (p s : string) :
  PyStr.contains p s = true <-> occurs_in p s.
Proof.
  unfold occurs_in. induction s as [|c s IH]; rewrite contains_unfold, orb_true_iff, startswith_spec.
  - split.
    + intros [[b ->] | H]; [now exists EmptyString, b | discriminate].
    + intros ([|x a] & b & H); [left; now exists b | discriminate].
  - rewrite IH. split.
    + intros [[b ->] | (a & b & ->)]; [now exists EmptyString, b | now exists (String c a), b].
    + intros ([|x a] & b & H).
      * left; now exists b.
      * right. injection H as _ ->. now exists a, b.
Qed.

Lemma any_keyword_spec (topic_lower : string) (keywords : list string) :
  any_keyword topic_lower keywords = true <-> keyword_match topic_lower keywords.
Proof.
  unfold any_keyword, keyword_match. rewrite existsb_exists.
  split; intros (k & Hin & H); exists k; (split; [assumption|]); now apply contains_spec.
Qed.

(** The splitting functions on the shapes that matter to the analyzer. *)
Example split_sentences_shapes :
  split_sentences "" = [""] /\
  split_sentences "One. Two?! Three" = ["One"; " Two"; " Three"] /\
  split_sentences "End." = ["End"; ""] /\
  PyStr.split "  two   words " = ["two"; "words"] /\
  PyStr.split "" = [].
Proof. repeat split. Qed.

(** A match of the capitalized-word pattern is a whole word: a capital inside
    a word, a digit or an underscore next to the letters, or capitals only,
    give no match. *)
Example findall_capitalized_shapes :
  findall_capitalized "Hello, World. McDonald HELLO Hello123 Hello_there Abc Paris!"
  = ["Hello"; "World"; "Paris"].
Proof. reflexivity. Qed.

(** ** Topic classifier *)

Lemma categorize_loop_first (topic_lower : string) (cats : list (string * list string)) :
  forall i category keywords,
    nth_error cats i = Some (category, keywords) ->
    any_keyword topic_lower keywords = true ->
    (forall j c k, (j < i)%nat -> nth_error cats j = Some (c, k) ->
                   any_keyword topic_lower k = false) ->
    categorize_loop topic_lower cats = PyStr.capitalize category.
Proof.
  induction cats as [|[c0 k0] rest IH]; intros i category keywords Hnth Hany Hbefore.
  - destruct i; discriminate.
  - destruct i as [|i]; simpl in *.
    + injection Hnth as -> ->. now rewrite Hany.
    + rewrite (Hbefore 0%nat c0 k0) by (lia || reflexivity).
      apply (IH i category keywords); auto.
      intros j c k Hj. apply (Hbefore (S j)). lia.
Qed.

Lemma categorize_loop_none (topic_lower : string) (cats : list (string * list string)) :
  (forall c k, In (c, k) cats -> any_keyword topic_lower k = false) ->
  categorize_loop topic_lower cats = "General".
Proof.
  induction cats as [|[c0 k0] rest IH]; intros H; simpl.
  - reflexivity.
  - rewrite (H c0 k0) by (left; reflexivity). apply IH.
    intros c k Hin. apply (H c k). now right.
Qed.

Lemma categorize_loop_range (topic_lower : string) (cats : list (string * list string)) :
  In (categorize_loop topic_lower cats)
     ("General" :: map (fun ck => PyStr.capitalize (fst ck)) cats).
Proof.
  induction cats as [|[c0 k0] rest IH]; simpl.
  - now left.
  - destruct (any_keyword topic_lower k0).
    + right; now left.
    + destruct IH as [<- | IH]; [now left | right; now right].
Qed.

Lemma not_true_false (b : bool) : b <> true -> b = false.
Proof. now destruct b. Qed.

(** C4.  The classifier is a total function of the topic: it returns one of the
    six category names; it returns the name of the first category, in the
    order of declaration, one of whose keywords occurs in the lower-cased
    topic; it returns General when no keyword of any category occurs; on
    "Python programming" it returns Technology and on the empty topic
    General. *)
Theorem categorize_topic_first_match (topic : string) :
  In (categorize_topic topic) category_names /\
  (forall i category keywords,
      nth_error categories i = Some (category, keywords) ->
      keyword_match (PyStr.lower topic) keywords ->
      (forall j c k, (j < i)%nat -> nth_error categories j = Some (c, k) ->
                     ~ keyword_match (PyStr.lower topic) k) ->
      categorize_topic topic = PyStr.capitalize category) /\
  ((forall c k, In (c, k) categories -> ~ keyword_match (PyStr.lower topic) k) ->
   categorize_topic topic = "General") /\
  categorize_topic "Python programming" = "Technology" /\
  categorize_topic "" = "General".
Proof.
  repeat split.
  - pose proof (categorize_loop_range (PyStr.lower topic) categories) as H.
    unfold categorize_topic. simpl in H. unfold category_names. simpl.
    intuition.
  - intros i category keywords Hnth Hmatch Hbefore.
    apply (categorize_loop_first _ _ i category keywords Hnth).
    + now apply any_keyword_spec.
    + intros j c k Hj Hk. apply not_true_false. rewrite any_keyword_spec.
      now apply (Hbefore j c k).
  - intros Hnone. apply categorize_loop_none.
    intros c k Hin. apply not_true_false. rewrite any_keyword_spec.
    now apply (Hnone c k).
Qed.

(** ** Dicts, slices and ranges *)

Lemma dict_get_In {V : Type} (d : list (string * V)) (k : string) (v : V) :
  dict_get d k = Some v -> In (k, v) d.
Proof.
  induction d as [|[k' v'] d IH]; simpl; [discriminate|].
  destruct (String.eqb_spec k' k) as [->|Hne].
  - intros [= ->]. now left.
  - intros H. right. now apply IH.
Qed.

Lemma dict_get_unique {V : Type} (d : list (string * V)) (k : string) (v : V) :
  NoDup (map fst d) -> In (k, v) d -> dict_get d k = Some v.
Proof.
  induction d as [|[k' v'] d IH]; simpl; [intros _ []|].
  intros Hnd [Heq | Hin].
  - injection Heq as -> ->. now rewrite String.eqb_refl.
  - inversion Hnd as [|? ? Hnotin Hnd']; subst.
    destruct (String.eqb_spec k' k) as [->|Hne]; [|now apply IH].
    exfalso. apply Hnotin. now apply (in_map fst _ (k, v)).
Qed.

Lemma dict_get_absent {V : Type} (d : list (string * V)) (k : string) :
  (forall v, ~ In (k, v) d) -> dict_get d k = None.
Proof.
  intros H. destruct (dict_get d k) as [v|] eqn:E; [|reflexivity].
  exfalso. apply (H v). now apply dict_get_In.
Qed.

Lemma length_range (n : Z) : List.length (range n) = Z.to_nat n.
Proof. apply length_seq. Qed.

Lemma slice_to_whole {A : Type} (l : list A) (k : Z) :
  (0 <= k)%Z -> List.length l = Z.to_nat k -> slice_to l k = l.
Proof.
  intros Hk Hlen. unfold slice_to.
  destruct (Z.leb_spec 0 k); [|lia].
  apply firstn_all2. lia.
Qed.

Lemma nth_error_map_range {A : Type} (f : nat -> A) (n : Z) (i : nat) :
  (i < Z.to_nat n)%nat -> nth_error (map f (range n)) i = Some (f i).
Proof.
  intros Hi. unfold range. rewrite nth_error_map, nth_error_seq.
  destruct (Nat.ltb_spec i (Z.to_nat n)); [reflexivity | lia].
Qed.

(** ** Aspect generator *)

Lemma aspect_templates_keys : NoDup (map fst aspect_templates).
Proof.
  simpl. repeat constructor; simpl; intuition discriminate.
Qed.

Lemma templates_of_nonempty (topic : string) :
  (0 < List.length (templates_of topic))%nat.
Proof.
  unfold templates_of.
  pose proof (categorize_loop_range (PyStr.lower topic) categories) as H.
  fold (categorize_topic topic) in H. simpl in H.
  repeat (destruct H as [<- | H]; [vm_compute; lia|]). destruct H.
Qed.

Lemma generate_aspects_eq (topic : string) (n : Z) :
  (0 <= n)%Z ->
  generate_aspects_from_topic topic n =
  map (fun i => nth (i mod List.length (templates_of topic)) (templates_of topic) ""
                ++ " of " ++ topic) (range n).
Proof.
  intros Hn. unfold generate_aspects_from_topic.
  apply slice_to_whole; [assumption|].
  now rewrite length_map, length_range.
Qed.

Lemma length_generate_aspects (topic : string) (n : Z) :
  (0 <= n)%Z -> List.length (generate_aspects_from_topic topic n) = Z.to_nat n.
Proof.
  intros Hn. rewrite generate_aspects_eq by assumption.
  now rewrite length_map, length_range.
Qed.

Lemma nth_error_generate_aspects (topic : string) (n : Z) (i : nat) :
  (i < Z.to_nat n)%nat ->
  nth_error (generate_aspects_from_topic topic n) i =
  Some (nth (i mod List.length (templates_of topic)) (templates_of topic) ""
        ++ " of " ++ topic).
Proof.
  intros Hi. rewrite generate_aspects_eq by lia.
  now rewrite (nth_error_map_range _ n i Hi).
Qed.

(** C3.  For a count [n >= 0] the aspect generator returns exactly [n]
    aspects.  The fragments it uses are the list that [aspect_templates] holds
    for the topic's lower-cased category, and the general list when it holds
    none; that list is not empty.  The aspect at index [i] is
    "fragment[i mod len(fragments)] of topic", and it equals the aspect at
    index [i mod len(fragments)]. *)
Theorem generate_aspects_cyclic (topic : string) (n : Z) :
  (0 <= n)%Z ->
  Z.of_nat (List.length (generate_aspects_from_topic topic n)) = n /\
  (forall fragments,
      In (PyStr.lower (categorize_topic topic), fragments) aspect_templates ->
      templates_of topic = fragments) /\
  ((forall fragments,
       ~ In (PyStr.lower (categorize_topic topic), fragments) aspect_templates) ->
   In ("general", templates_of topic) aspect_templates) /\
  (0 < List.length (templates_of topic))%nat /\
  (forall i, (i < List.length (generate_aspects_from_topic topic n))%nat ->
      nth_error (generate_aspects_from_topic topic n) i =
      Some (nth (i mod List.length (templates_of topic)) (templates_of topic) ""
            ++ " of " ++ topic) /\
      nth_error (generate_aspects_from_topic topic n) i =
      nth_error (generate_aspects_from_topic topic n)
                (i mod List.length (templates_of topic))).
Proof.
  intros Hn. pose proof (length_generate_aspects topic n Hn) as Hlen.
  split; [lia|]. split; [|split; [|split]].
  - intros fragments Hin. unfold templates_of, dict_get_default.
    now rewrite (dict_get_unique _ _ _ aspect_templates_keys Hin).
  - intros Hnone. unfold templates_of, dict_get_default.
    rewrite (dict_get_absent _ _ Hnone). simpl. tauto.
  - apply templates_of_nonempty.
  - intros i Hi. rewrite Hlen in Hi.
    pose proof (Nat.Div0.mod_le i (List.length (templates_of topic))) as Hle.
    rewrite !nth_error_generate_aspects by lia.
    now rewrite Nat.Div0.mod_mod.
Qed.

Lemma generate_aspects_cyclic_witness :
  (0 <= 12)%Z /\
  Z.of_nat (List.length (generate_aspects_from_topic "Ancient Rome" 12)) = 12%Z /\
  nth_error (generate_aspects_from_topic "Ancient Rome" 12) 11 =
  nth_error (generate_aspects_from_topic "Ancient Rome" 12)
            (11 mod List.length (templates_of "Ancient Rome")).
Proof.
  assert (H : (0 <= 12)%Z) by lia.
  split; [exact H|].
  destruct (generate_aspects_cyclic "Ancient Rome" 12 H) as (Hlen & _ & _ & _ & Hcyc).
  split; [exact Hlen|].
  apply Hcyc. vm_compute. lia.
Defined.

(** ** Option lists *)

Lemma list_index_In (x : string) (l : list string) :
  In x l -> exists i, list_index x l = Some i /\ nth_error l i = Some x.
Proof.
  induction l as [|y l IH]; simpl; [intros []|].
  intros Hin. destruct (String.eqb_spec y x) as [->|Hne].
  - now exists 0%nat.
  - destruct Hin as [Heq | Hin]; [contradiction|].
    destruct (IH Hin) as (i & Hi & Hnth). exists (S i). now rewrite Hi.
Qed.

Lemma list_pop_nth (l : list string) :
  forall i x, nth_error l i = Some x ->
  exists rest, list_pop i l = Some (x, rest) /\ Permutation l (x :: rest).
Proof.
  induction l as [|y l IH]; intros [|i] x H; simpl in *; try discriminate.
  - injection H as ->. now exists l.
  - destruct (IH i x H) as (rest & -> & Hperm).
    exists (y :: rest). split; [reflexivity|].
    rewrite Hperm. apply perm_swap.
Qed.

Lemma repin_first (correct : string) (l : list string) :
  In correct l ->
  nth_error (repin correct l) 0 = Some correct /\ Permutation l (repin correct l).
Proof.
  intros Hin. unfold repin.
  destruct (list_index_In correct l Hin) as (i & -> & Hnth).
  destruct i as [|i]; cbn [Nat.eqb]; [now split|].
  destruct (list_pop_nth l (S i) correct Hnth) as (rest & -> & Hperm).
  now split.
Qed.

Lemma length_distractors (aspect topic difficulty : string) :
  List.length (distractors_of aspect topic difficulty) = 4%nat.
Proof.
  unfold distractors_of.
  destruct (String.eqb difficulty "easy"); [reflexivity|].
  destruct (String.eqb difficulty "medium"); reflexivity.
Qed.

Lemma plausible_options_first (shuffle : list string -> list string)
    (aspect topic difficulty : string) :
  Permutation (("The " ++ aspect) :: firstn 3 (distractors_of aspect topic difficulty))
              (shuffle (("The " ++ aspect) :: firstn 3 (distractors_of aspect topic difficulty))) ->
  List.length (generate_plausible_options shuffle aspect topic difficulty) = 4%nat /\
  nth_error (generate_plausible_options shuffle aspect topic difficulty) 0
  = Some ("The " ++ aspect) /\
  Permutation (("The " ++ aspect) :: firstn 3 (distractors_of aspect topic difficulty))
              (generate_plausible_options shuffle aspect topic difficulty).
Proof.
  intros Hperm. unfold generate_plausible_options.
  set (options := ("The " ++ aspect) :: firstn 3 (distractors_of aspect topic difficulty)) in *.
  assert (Hin : In ("The " ++ aspect) (shuffle options)).
  { apply (Permutation_in _ Hperm). now left. }
  destruct (repin_first _ _ Hin) as [Hfirst Hrepin].
  split; [|split; [exact Hfirst | exact (Permutation_trans Hperm Hrepin)]].
  rewrite <- (Permutation_length Hrepin), <- (Permutation_length Hperm).
  unfold options. cbn [List.length]. now rewrite length_firstn, length_distractors.
Qed.

(** ** Quiz assembler *)

Lemma fallback_questions_eq (rng : nat -> list string -> list string)
    (topic difficulty : string) (n : Z) (quiz_type context : string) :
  Quiz.questions (generate_enhanced_fallback_quiz rng topic difficulty n quiz_type context)
  = Some (map (fun i => fallback_question (rng i) topic difficulty quiz_type
                          (generate_aspects_from_topic topic n) i)
              (range n)).
Proof. reflexivity. Qed.

Lemma length_fallback_questions (rng : nat -> list string -> list string)
    (topic difficulty : string) (n : Z) (quiz_type context : string) :
  List.length (Quiz.get_questions
                 (generate_enhanced_fallback_quiz rng topic difficulty n quiz_type context))
  = Z.to_nat n.
Proof.
  unfold Quiz.get_questions. rewrite fallback_questions_eq.
  now rewrite length_map, length_range.
Qed.

(** Question [i] of the fallback quiz is built from aspect [i]. *)
Lemma nth_error_fallback_questions (rng : nat -> list string -> list string)
    (topic difficulty : string) (n : Z) (quiz_type context : string) (i : nat) :
  (i < Z.to_nat n)%nat ->
  exists aspect,
    nth_error (generate_aspects_from_topic topic n) i = Some aspect /\
    nth (i mod List.length (generate_aspects_from_topic topic n))
        (generate_aspects_from_topic topic n) "" = aspect /\
    nth_error (Quiz.get_questions
                 (generate_enhanced_fallback_quiz rng topic difficulty n quiz_type context)) i
    = Some (fallback_question (rng i) topic difficulty quiz_type
              (generate_aspects_from_topic topic n) i).
Proof.
  intros Hi.
  assert (Hlen : List.length (generate_aspects_from_topic topic n) = Z.to_nat n)
    by (apply length_generate_aspects; lia).
  destruct (nth_error (generate_aspects_from_topic topic n) i) as [aspect|] eqn:E.
  - exists aspect. split; [reflexivity|]. split.
    + rewrite Hlen, Nat.mod_small by assumption.
      now apply nth_error_nth.
    + unfold Quiz.get_questions. rewrite fallback_questions_eq.
      exact (nth_error_map_range
               (fun k => fallback_question (rng k) topic difficulty quiz_type
                           (generate_aspects_from_topic topic n) k) n i Hi).
  - apply nth_error_None in E. lia.
Qed.

Lemma nth_error_fallback_bound (rng : nat -> list string -> list string)
    (topic difficulty : string) (n : Z) (quiz_type context : string) (i : nat) (q : Question.t) :
  nth_error (Quiz.get_questions
               (generate_enhanced_fallback_quiz rng topic difficulty n quiz_type context)) i
  = Some q ->
  (i < Z.to_nat n)%nat.
Proof.
  intros H. rewrite <- (length_fallback_questions rng topic difficulty n quiz_type context).
  apply nth_error_Some. now rewrite H.
Qed.

(** C2.  Whatever permutations the shuffles produce, the option list of a
    synthesized question has four entries, the correct string "The {aspect}"
    and three distractors, and its entry at index 0 is the correct string;
    every question of the fallback quiz reports [correctAnswer] 0 and has such
    an option list for its aspect. *)
Theorem correct_option_pinned_first (rng : nat -> list string -> list string) :
  (forall k l, Permutation l (rng k l)) ->
  (forall k aspect topic difficulty,
      List.length (generate_plausible_options (rng k) aspect topic difficulty) = 4%nat /\
      nth_error (generate_plausible_options (rng k) aspect topic difficulty) 0
      = Some ("The " ++ aspect) /\
      Permutation (("The " ++ aspect) :: firstn 3 (distractors_of aspect topic difficulty))
                  (generate_plausible_options (rng k) aspect topic difficulty)) /\
  (forall topic difficulty n quiz_type context i q,
      nth_error (Quiz.get_questions
                   (generate_enhanced_fallback_quiz rng topic difficulty n quiz_type context)) i
      = Some q ->
      Question.correctAnswer q = Some 0%Z /\
      exists aspect options,
        nth_error (generate_aspects_from_topic topic n) i = Some aspect /\
        Question.options q = Some options /\
        List.length options = 4%nat /\
        nth_error options 0 = Some ("The " ++ aspect)).
Proof.
  intros Hperm. split.
  - intros k aspect topic difficulty. apply plausible_options_first, Hperm.
  - intros topic difficulty n quiz_type context i q Hq.
    pose proof (nth_error_fallback_bound _ _ _ _ _ _ _ _ Hq) as Hi.
    destruct (nth_error_fallback_questions rng topic difficulty n quiz_type context i Hi)
      as (aspect & Haspect & Hnth & Hq').
    rewrite Hq' in Hq. injection Hq as <-.
    split; [reflexivity|].
    exists aspect, (generate_plausible_options (rng i) aspect topic difficulty).
    split; [exact Haspect|]. split.
    + unfold fallback_question. simpl. now rewrite Hnth.
    + destruct (plausible_options_first (rng i) aspect topic difficulty (Hperm i _))
        as (Hlen & Hfirst & _).
      now split.
Qed.

Lemma correct_option_pinned_first_witness :
  (forall (k : nat) (l : list string), Permutation l ((fun _ => @rev string) k l)) /\
  nth_error (generate_plausible_options (@rev string) "basics of Tea" "Tea" "hard") 0
  = Some "The basics of Tea".
Proof.
  assert (H : forall (k : nat) (l : list string), Permutation l ((fun _ => @rev string) k l))
    by (intros k l; apply Permutation_rev).
  split; [exact H|].
  exact (proj1 (proj2 (proj1 (correct_option_pinned_first (fun _ => @rev string) H)
                         0%nat "basics of Tea" "Tea" "hard"))).
Defined.

Lemma append_empty_r (s : string) : s ++ "" = s.
Proof. induction s as [|c s IH]; simpl; [reflexivity | now rewrite IH]. Qed.

Lemma occurs_in_suffix (a s : string) : occurs_in s (a ++ s).
Proof. exists a, "". now rewrite append_empty_r. Qed.

Lemma In_fallback_questions (rng : nat -> list string -> list string)
    (topic difficulty : string) (n : Z) (quiz_type context : string) (q : Question.t) :
  In q (Quiz.get_questions
          (generate_enhanced_fallback_quiz rng topic difficulty n quiz_type context)) ->
  exists i, q = fallback_question (rng i) topic difficulty quiz_type
                  (generate_aspects_from_topic topic n) i.
Proof.
  unfold Quiz.get_questions. rewrite fallback_questions_eq.
  intros H. apply in_map_iff in H. destruct H as (i & <- & _). now exists i.
Qed.

(** C1 (as amended).  For a difficulty among easy, medium and hard, with its
    points [p] and time limit [t], and a count [n >= 0], the fallback quiz has
    a title that contains the topic, exactly [n] questions, each with points
    [p], time limit [t] and the given difficulty, [totalPoints = n * p], and
    [estimatedTime] the binary64 product [n * 0.8]; for [n = 3] that product is
    2.4000000000000004. *)
Theorem fallback_quiz_totals (rng : nat -> list string -> list string)
    (topic difficulty : string) (n : Z) (quiz_type context : string) (p t : Z) :
  In (difficulty, p, t) [("easy", 100, 30); ("medium", 150, 45); ("hard", 200, 60)]%Z ->
  (0 <= n)%Z ->
  (exists title,
      Quiz.title (generate_enhanced_fallback_quiz rng topic difficulty n quiz_type context)
      = Some title /\ occurs_in topic title) /\
  Z.of_nat (List.length
              (Quiz.get_questions
                 (generate_enhanced_fallback_quiz rng topic difficulty n quiz_type context))) = n /\
  (forall q,
      In q (Quiz.get_questions
              (generate_enhanced_fallback_quiz rng topic difficulty n quiz_type context)) ->
      Question.points q = Some p /\ Question.timeLimit q = Some t /\
      Question.difficulty q = Some difficulty) /\
  Quiz.totalPoints (generate_enhanced_fallback_quiz rng topic difficulty n quiz_type context)
  = Some (n * p)%Z /\
  Quiz.estimatedTime (generate_enhanced_fallback_quiz rng topic difficulty n quiz_type context)
  = Some (PrimFloat.mul (float_of_int n) 0.8%float) /\
  (n = 3%Z ->
   Quiz.estimatedTime (generate_enhanced_fallback_quiz rng topic difficulty n quiz_type context)
   = Some 2.4000000000000004%float).
Proof.
  intros Hd Hn.
  assert (Hmaps : dict_get_default points_map difficulty 100%Z = p /\
                  dict_get_default time_map difficulty 30%Z = t).
  { simpl in Hd. destruct Hd as [H | [H | [H | []]]]; injection H as <- <- <-; now split. }
  destruct Hmaps as [Hp Ht].
  split; [|split; [|split; [|split; [|split]]]].
  - exists ("Comprehensive Quiz: " ++ topic). split; [reflexivity | apply occurs_in_suffix].
  - rewrite length_fallback_questions. lia.
  - intros q Hq. apply In_fallback_questions in Hq. destruct Hq as (i & ->).
    unfold fallback_question. simpl. now rewrite Hp, Ht.
  - simpl. now rewrite Hp.
  - reflexivity.
  - intros ->. reflexivity.
Qed.

Lemma fallback_quiz_totals_witness :
  In ("easy", 100%Z, 30%Z) [("easy", 100, 30); ("medium", 150, 45); ("hard", 200, 60)]%Z /\
  (0 <= 3)%Z /\
  (exists title,
      Quiz.title (generate_enhanced_fallback_quiz (fun _ l => l) "Photosynthesis" "easy" 3
                    "multiple-choice" "") = Some title /\
      occurs_in "Photosynthesis" title) /\
  Z.of_nat (List.length
              (Quiz.get_questions
                 (generate_enhanced_fallback_quiz (fun _ l => l) "Photosynthesis" "easy" 3
                    "multiple-choice" ""))) = 3%Z /\
  (forall q,
      In q (Quiz.get_questions
              (generate_enhanced_fallback_quiz (fun _ l => l) "Photosynthesis" "easy" 3
                 "multiple-choice" "")) ->
      Question.points q = Some 100%Z /\ Question.timeLimit q = Some 30%Z /\
      Question.difficulty q = Some "easy") /\
  Quiz.totalPoints (generate_enhanced_fallback_quiz (fun _ l => l) "Photosynthesis" "easy" 3
                      "multiple-choice" "") = Some 300%Z /\
  Quiz.estimatedTime (generate_enhanced_fallback_quiz (fun _ l => l) "Photosynthesis" "easy" 3
                        "multiple-choice" "") = Some 2.4000000000000004%float.
Proof.
  assert (Hd : In ("easy", 100%Z, 30%Z)
                  [("easy", 100, 30); ("medium", 150, 45); ("hard", 200, 60)]%Z)
    by (left; reflexivity).
  assert (Hn : (0 <= 3)%Z) by lia.
  destruct (fallback_quiz_totals (fun _ l => l) "Photosynthesis" "easy" 3
              "multiple-choice" "" 100 30 Hd Hn)
    as (Htitle & Hlen & Hqs & Htotal & _ & Htime).
  split; [exact Hd|]. split; [exact Hn|]. split; [exact Htitle|].
  split; [exact Hlen|]. split; [exact Hqs|]. split; [exact Htotal|].
  exact (Htime eq_refl).
Defined.

(** C1, counterexample.  The double [3 * 0.8] is not the double [2.4]: the
    estimated time of the three-question quiz differs from 2.4. *)
Lemma estimated_time_is_not_2_4 :
  Quiz.estimatedTime (generate_enhanced_fallback_quiz (fun _ l => l) "Photosynthesis" "easy" 3
                        "multiple-choice" "")
  <> Some 2.4%float.
Proof.
  intros H.
  apply (f_equal (fun o => match o with
                           | Some f => PrimFloat.eqb f 2.4%float
                           | None => false
                           end)) in H.
  vm_compute in H. discriminate H.
Qed.

(** ** Unrecognised difficulty *)

Lemma unknown_difficulty_get {V : Type} (difficulty : string) (e m h : V) :
  difficulty <> "easy" -> difficulty <> "medium" -> difficulty <> "hard" ->
  dict_get [("easy", e); ("medium", m); ("hard", h)] difficulty = None.
Proof.
  intros He Hm Hh. cbn [dict_get].
  rewrite (proj2 (String.eqb_neq "easy" difficulty)) by congruence.
  rewrite (proj2 (String.eqb_neq "medium" difficulty)) by congruence.
  now rewrite (proj2 (String.eqb_neq "hard" difficulty)) by congruence.
Qed.

Lemma explanation_medium_not_easy (topic aspect : string) :
  create_detailed_explanation topic aspect "medium"
  <> create_detailed_explanation topic aspect "easy".
Proof.
  unfold create_detailed_explanation, dict_get_default, explanations. simpl. discriminate.
Qed.

Lemma explanation_unknown_difficulty (topic aspect difficulty : string) :
  difficulty <> "easy" -> difficulty <> "medium" -> difficulty <> "hard" ->
  create_detailed_explanation topic aspect difficulty
  = create_detailed_explanation topic aspect "medium".
Proof.
  intros He Hm Hh. unfold create_detailed_explanation at 1.
  unfold dict_get_default at 1. unfold explanations at 1.
  now rewrite (unknown_difficulty_get difficulty) by assumption.
Qed.

(** C10.  With a difficulty that is none of easy, medium and hard, every
    question of the fallback quiz is still produced; it gets 100 points and
    a time limit of 30, the values of the easy level, and its explanation is
    the one of the medium level, which differs from the easy one. *)
Theorem unknown_difficulty_mixes_levels (rng : nat -> list string -> list string)
    (topic difficulty : string) (n : Z) (quiz_type context : string) (i : nat) :
  difficulty <> "easy" -> difficulty <> "medium" -> difficulty <> "hard" ->
  (i < Z.to_nat n)%nat ->
  exists aspect q,
    nth_error (generate_aspects_from_topic topic n) i = Some aspect /\
    nth_error (Quiz.get_questions
                 (generate_enhanced_fallback_quiz rng topic difficulty n quiz_type context)) i
    = Some q /\
    Question.points q = Some 100%Z /\
    Question.timeLimit q = Some 30%Z /\
    dict_get points_map "easy" = Some 100%Z /\
    dict_get time_map "easy" = Some 30%Z /\
    Question.explanation q = Some (create_detailed_explanation topic aspect "medium") /\
    create_detailed_explanation topic aspect "medium"
    <> create_detailed_explanation topic aspect "easy".
Proof.
  intros He Hm Hh Hi.
  destruct (nth_error_fallback_questions rng topic difficulty n quiz_type context i Hi)
    as (aspect & Haspect & Hnth & Hq).
  exists aspect, (fallback_question (rng i) topic difficulty quiz_type
                    (generate_aspects_from_topic topic n) i).
  split; [exact Haspect|]. split; [exact Hq|].
  unfold fallback_question. cbn [Question.points Question.timeLimit Question.explanation].
  rewrite Hnth, (explanation_unknown_difficulty topic aspect difficulty He Hm Hh).
  unfold dict_get_default, points_map, time_map.
  rewrite !(unknown_difficulty_get difficulty) by assumption.
  repeat (split; [reflexivity|]).
  apply explanation_medium_not_easy.
Qed.

Lemma unknown_difficulty_mixes_levels_witness :
  "expert" <> "easy" /\ "expert" <> "medium" /\ "expert" <> "hard" /\ (1 < Z.to_nat 2)%nat /\
  exists aspect q,
    nth_error (generate_aspects_from_topic "Tea" 2) 1 = Some aspect /\
    nth_error (Quiz.get_questions
                 (generate_enhanced_fallback_quiz (fun _ l => l) "Tea" "expert" 2
                    "multiple-choice" "")) 1 = Some q /\
    Question.points q = Some 100%Z /\
    Question.timeLimit q = Some 30%Z /\
    dict_get points_map "easy" = Some 100%Z /\
    dict_get time_map "easy" = Some 30%Z /\
    Question.explanation q = Some (create_detailed_explanation "Tea" aspect "medium") /\
    create_detailed_explanation "Tea" aspect "medium"
    <> create_detailed_explanation "Tea" aspect "easy".
Proof.
  assert (He : "expert" <> "easy") by discriminate.
  assert (Hm : "expert" <> "medium") by discriminate.
  assert (Hh : "expert" <> "hard") by discriminate.
  assert (Hi : (1 < Z.to_nat 2)%nat) by (simpl; lia).
  repeat (split; [assumption|]).
  exact (unknown_difficulty_mixes_levels (fun _ l => l) "Tea" "expert" 2
           "multiple-choice" "" 1 He Hm Hh Hi).
Defined.

(** ** Quiz enhancer *)

Lemma nth_error_combine_seq {A : Type} (l : list A) :
  forall start i,
    nth_error (combine (seq start (List.length l)) l) i
    = option_map (fun x => ((start + i)%nat, x)) (nth_error l i).
Proof.
  induction l as [|x l IH]; intros start i; simpl.
  - now destruct i.
  - destruct i as [|i]; simpl.
    + now rewrite Nat.add_0_r.
    + rewrite IH. now rewrite Nat.add_succ_r.
Qed.

Lemma nth_error_map_enumerate {A B : Type} (f : nat * A -> B) (l : list A) (i : nat) :
  nth_error (map f (enumerate l)) i = option_map (fun x => f (i, x)) (nth_error l i).
Proof.
  unfold enumerate. rewrite nth_error_map, nth_error_combine_seq.
  now destruct (nth_error l i).
Qed.

Lemma length_enumerate {A : Type} (l : list A) : List.length (enumerate l) = List.length l.
Proof.
  unfold enumerate. rewrite length_combine, length_seq. apply Nat.min_id.
Qed.

Lemma difficulty_questions (clock : nat -> string) (quiz : Quiz.t) :
  Quiz.get_questions (enhance_quiz_content clock quiz "difficulty")
  = map vary_difficulty (enumerate (Quiz.get_questions quiz)).
Proof.
  unfold enhance_quiz_content, Quiz.get_questions. simpl.
  now destruct (Quiz.questions quiz).
Qed.

Lemma explanations_questions (clock : nat -> string) (quiz : Quiz.t) :
  Quiz.get_questions (enhance_quiz_content clock quiz "explanations")
  = map (add_explanation (Quiz.title quiz)) (Quiz.get_questions quiz).
Proof.
  unfold enhance_quiz_content, Quiz.get_questions. simpl.
  now destruct (Quiz.questions quiz).
Qed.

Lemma explanations_title (clock : nat -> string) (quiz : Quiz.t) :
  Quiz.title (enhance_quiz_content clock quiz "explanations") = Quiz.title quiz.
Proof. reflexivity. Qed.

(** C6.  The difficulty mode keeps the number of questions and gives the
    question at position [i] the level of [i mod 3]: easy with 100 points and
    30 seconds, medium with 150 and 45, hard with 200 and 60, whatever the
    question held before; its other fields are kept.  On five questions the
    difficulties are easy, medium, hard, easy, medium. *)
Theorem difficulty_mode_cycles (clock : nat -> string) (quiz : Quiz.t) :
  List.length (Quiz.get_questions (enhance_quiz_content clock quiz "difficulty"))
  = List.length (Quiz.get_questions quiz) /\
  (forall i q,
      nth_error (Quiz.get_questions quiz) i = Some q ->
      exists d p t,
        ((i mod 3 = 0)%nat /\ d = "easy" /\ p = 100%Z /\ t = 30%Z \/
         (i mod 3 = 1)%nat /\ d = "medium" /\ p = 150%Z /\ t = 45%Z \/
         (i mod 3 = 2)%nat /\ d = "hard" /\ p = 200%Z /\ t = 60%Z) /\
        nth_error (Quiz.get_questions (enhance_quiz_content clock quiz "difficulty")) i
        = Some {| Question.question := Question.question q;
                  Question.type := Question.type q;
                  Question.options := Question.options q;
                  Question.correctAnswer := Question.correctAnswer q;
                  Question.explanation := Question.explanation q;
                  Question.points := Some p;
                  Question.timeLimit := Some t;
                  Question.difficulty := Some d;
                  Question.category := Question.category q;
                  Question.tags := Question.tags q;
                  Question.educationalTip := Question.educationalTip q |}) /\
  (List.length (Quiz.get_questions quiz) = 5%nat ->
   map Question.difficulty (Quiz.get_questions (enhance_quiz_content clock quiz "difficulty"))
   = [Some "easy"; Some "medium"; Some "hard"; Some "easy"; Some "medium"]).
Proof.
  rewrite difficulty_questions. split; [|split].
  - now rewrite length_map, length_enumerate.
  - intros i q Hq. rewrite nth_error_map_enumerate, Hq. cbn [option_map vary_difficulty].
    pose proof (Nat.mod_upper_bound i 3) as Hlt.
    destruct (i mod 3)%nat as [|[|[|k]]] eqn:E; cbn [Nat.eqb].
    + exists "easy", 100%Z, 30%Z. split; [left; repeat split | reflexivity].
    + exists "medium", 150%Z, 45%Z. split; [right; left; repeat split | reflexivity].
    + exists "hard", 200%Z, 60%Z. split; [right; right; repeat split | reflexivity].
    + lia.
  - intros Hlen.
    destruct (Quiz.get_questions quiz) as [|q0 [|q1 [|q2 [|q3 [|q4 [|q5 l]]]]]];
      try discriminate Hlen.
    reflexivity.
Qed.

Lemma difficulty_mode_cycles_witness :
  map Question.difficulty
      (Quiz.get_questions
         (enhance_quiz_content (fun _ => "2024-01-01T00:00:00")
            (generate_enhanced_fallback_quiz (fun _ l => l) "Tea" "hard" 5 "multiple-choice" "")
            "difficulty"))
  = [Some "easy"; Some "medium"; Some "hard"; Some "easy"; Some "medium"].
Proof.
  apply (difficulty_mode_cycles (fun _ => "2024-01-01T00:00:00")
           (generate_enhanced_fallback_quiz (fun _ l => l) "Tea" "hard" 5 "multiple-choice" "")).
  reflexivity.
Defined.

Lemma explanation_nonempty (topic aspect difficulty : string) :
  create_detailed_explanation topic aspect difficulty <> "".
Proof.
  unfold create_detailed_explanation, dict_get_default, explanations. cbn [dict_get].
  destruct (String.eqb "easy" difficulty); [simpl; discriminate|].
  destruct (String.eqb "medium" difficulty); [simpl; discriminate|].
  destruct (String.eqb "hard" difficulty); simpl; discriminate.
Qed.

Lemma add_explanation_filled (title : option string) (q : Question.t) :
  exists c s, Question.explanation (add_explanation title q) = Some (String c s).
Proof.
  unfold add_explanation.
  destruct (Question.explanation q) as [[|c s]|] eqn:E.
  - cbn [Question.set_explanation Question.explanation].
    destruct (create_detailed_explanation _ _ _) as [|c s] eqn:Ex;
      [now apply explanation_nonempty in Ex | now exists c, s].
  - exists c, s. exact E.
  - cbn [Question.set_explanation Question.explanation].
    destruct (create_detailed_explanation _ _ _) as [|c s] eqn:Ex;
      [now apply explanation_nonempty in Ex | now exists c, s].
Qed.

Lemma add_explanation_fixed (title : option string) (q : Question.t) :
  forall c s, Question.explanation q = Some (String c s) -> add_explanation title q = q.
Proof. intros c s H. unfold add_explanation. now rewrite H. Qed.

Lemma add_explanation_idempotent (title title' : option string) (q : Question.t) :
  add_explanation title' (add_explanation title q) = add_explanation title q.
Proof.
  destruct (add_explanation_filled title q) as (c & s & H).
  exact (add_explanation_fixed title' _ c s H).
Qed.

(** C9.  Applying the explanations mode to its own result changes no
    question, so the explanations are the same after the second pass.  After
    one pass every question has a non-empty explanation; a question that had
    one keeps it, and a question whose explanation was absent or empty gets
    the synthesized text for the quiz title (or "topic"), the aspect
    "key concept" and its difficulty (or "medium"); synthesized texts are not
    empty. *)
Theorem explanations_mode_idempotent (clock clock' : nat -> string) (quiz : Quiz.t) :
  Quiz.get_questions
    (enhance_quiz_content clock' (enhance_quiz_content clock quiz "explanations") "explanations")
  = Quiz.get_questions (enhance_quiz_content clock quiz "explanations") /\
  map Question.explanation
      (Quiz.get_questions
         (enhance_quiz_content clock' (enhance_quiz_content clock quiz "explanations")
            "explanations"))
  = map Question.explanation
        (Quiz.get_questions (enhance_quiz_content clock quiz "explanations")) /\
  (forall q, In q (Quiz.get_questions (enhance_quiz_content clock quiz "explanations")) ->
             exists e, Question.explanation q = Some e /\ e <> "") /\
  (forall i q,
      nth_error (Quiz.get_questions quiz) i = Some q ->
      exists q',
        nth_error (Quiz.get_questions (enhance_quiz_content clock quiz "explanations")) i
        = Some q' /\
        (forall e, Question.explanation q = Some e -> e <> "" -> q' = q) /\
        (Question.explanation q = None \/ Question.explanation q = Some "" ->
         Question.explanation q'
         = Some (create_detailed_explanation (get_or (Quiz.title quiz) "topic") "key concept"
                   (get_or (Question.difficulty q) "medium")))) /\
  (forall topic aspect difficulty, create_detailed_explanation topic aspect difficulty <> "").
Proof.
  assert (Hsame :
    Quiz.get_questions
      (enhance_quiz_content clock' (enhance_quiz_content clock quiz "explanations") "explanations")
    = Quiz.get_questions (enhance_quiz_content clock quiz "explanations")).
  { rewrite (explanations_questions clock'), explanations_title, explanations_questions.
    rewrite map_map. apply map_ext. intros q. apply add_explanation_idempotent. }
  split; [exact Hsame|]. split; [now rewrite Hsame|]. split; [|split].
  - intros q Hq. rewrite explanations_questions in Hq.
    apply in_map_iff in Hq. destruct Hq as (q0 & <- & _).
    destruct (add_explanation_filled (Quiz.title quiz) q0) as (c & s & H).
    exists (String c s). split; [exact H | discriminate].
  - intros i q Hq. exists (add_explanation (Quiz.title quiz) q).
    rewrite explanations_questions, nth_error_map, Hq. split; [reflexivity|]. split.
    + intros e He Hne. destruct e as [|c s]; [contradiction|].
      exact (add_explanation_fixed _ _ c s He).
    + intros [H | H]; unfold add_explanation; now rewrite H.
  - apply explanation_nonempty.
Qed.

(** ** Total points *)

Lemma sum_points_const (p : Z) (questions : list Question.t) :
  (forall q, In q questions -> Question.points q = Some p) ->
  sum_points questions = Some (Z.of_nat (List.length questions) * p)%Z.
Proof.
  induction questions as [|q rest IH]; intros H.
  - reflexivity.
  - cbn [sum_points]. rewrite (H q) by now left.
    rewrite IH by (intros q' Hq'; apply H; now right).
    f_equal. cbn [List.length]. lia.
Qed.

Lemma sum_points_ext (questions questions' : list Question.t) :
  map Question.points questions = map Question.points questions' ->
  sum_points questions = sum_points questions'.
Proof.
  revert questions'. induction questions as [|q rest IH]; intros [|q' rest'] H;
    try discriminate H; [reflexivity|].
  injection H as Hq Hrest. cbn [sum_points]. now rewrite Hq, (IH rest' Hrest).
Qed.

Lemma map_combine_seq_ext {A B C : Type} (f : nat * A -> B) (g : B -> C) (h : A -> C)
    (l : list A) :
  (forall i x, g (f (i, x)) = h x) ->
  forall start, map g (map f (combine (seq start (List.length l)) l)) = map h l.
Proof.
  intros H. induction l as [|x l IH]; intros start; simpl; [reflexivity|].
  now rewrite H, IH.
Qed.

(** The fallback assembler establishes the agreement. *)
Lemma fallback_total_points_agree (rng : nat -> list string -> list string)
    (topic difficulty : string) (n : Z) (quiz_type context : string) :
  (0 <= n)%Z ->
  total_points_agree (generate_enhanced_fallback_quiz rng topic difficulty n quiz_type context).
Proof.
  intros Hn. exists (n * dict_get_default points_map difficulty 100)%Z.
  split; [reflexivity|].
  rewrite (sum_points_const (dict_get_default points_map difficulty 100%Z)).
  - rewrite length_fallback_questions. now rewrite Z2Nat.id by lia.
  - intros q Hq. apply In_fallback_questions in Hq. now destruct Hq as (i & ->).
Qed.

(** The explanations mode keeps it. *)
Lemma explanations_keep_total_points (clock : nat -> string) (quiz : Quiz.t) :
  total_points_agree quiz ->
  total_points_agree (enhance_quiz_content clock quiz "explanations").
Proof.
  intros (total & Htotal & Hsum). exists total. split; [exact Htotal|].
  rewrite <- Hsum, explanations_questions. apply sum_points_ext.
  rewrite map_map. apply map_ext. intros q.
  destruct q as [text type options answer explanation points limit difficulty cat tags tip].
  now destruct explanation as [[|c s]|].
Qed.

Lemma comprehensive_questions (clock : nat -> string) (quiz : Quiz.t) :
  Quiz.get_questions (enhance_quiz_content clock quiz "comprehensive")
  = map (enhance_question (option_map (fun title => "Enhanced: " ++ title) (Quiz.title quiz))
                          (Quiz.category quiz))
        (enumerate (Quiz.get_questions quiz)).
Proof.
  destruct quiz as [title description category difficulty time total objectives questions tags meta].
  now destruct title, description, objectives, questions.
Qed.

Lemma comprehensive_total_points (clock : nat -> string) (quiz : Quiz.t) :
  Quiz.totalPoints (enhance_quiz_content clock quiz "comprehensive") = Quiz.totalPoints quiz.
Proof.
  destruct quiz as [title description category difficulty time total objectives questions tags meta].
  now destruct title, description, objectives.
Qed.

Lemma enhance_question_points (title category : option string) (i : nat) (q : Question.t) :
  Question.points (enhance_question title category (i, q)) = Question.points q.
Proof.
  destruct q as [text type options answer explanation points limit difficulty cat tags tip].
  now destruct tip, tags, explanation.
Qed.

(** The comprehensive mode keeps it. *)
Lemma comprehensive_keeps_total_points (clock : nat -> string) (quiz : Quiz.t) :
  total_points_agree quiz ->
  total_points_agree (enhance_quiz_content clock quiz "comprehensive").
Proof.
  intros (total & Htotal & Hsum). exists total.
  rewrite comprehensive_total_points. split; [exact Htotal|].
  rewrite comprehensive_questions.
  rewrite <- Hsum. apply sum_points_ext. unfold enumerate.
  apply map_combine_seq_ext. intros i q. apply enhance_question_points.
Qed.

(** C5.  The difficulty mode does not keep the agreement of [totalPoints] with
    the questions' points.  The fallback quiz on "Photosynthesis" with three
    easy questions has [totalPoints] 300 and points that sum to 300; after the
    difficulty mode its questions have 100, 150 and 200 points, which sum to
    450, and [totalPoints] is still 300. *)
Theorem difficulty_mode_breaks_total_points (clock : nat -> string) :
  total_points_agree
    (generate_enhanced_fallback_quiz (fun _ l => l) "Photosynthesis" "easy" 3
       "multiple-choice" "") /\
  Quiz.totalPoints
    (enhance_quiz_content clock
       (generate_enhanced_fallback_quiz (fun _ l => l) "Photosynthesis" "easy" 3
          "multiple-choice" "") "difficulty") = Some 300%Z /\
  map Question.points
    (Quiz.get_questions
       (enhance_quiz_content clock
          (generate_enhanced_fallback_quiz (fun _ l => l) "Photosynthesis" "easy" 3
             "multiple-choice" "") "difficulty"))
  = [Some 100%Z; Some 150%Z; Some 200%Z] /\
  sum_points
    (Quiz.get_questions
       (enhance_quiz_content clock
          (generate_enhanced_fallback_quiz (fun _ l => l) "Photosynthesis" "easy" 3
             "multiple-choice" "") "difficulty")) = Some 450%Z /\
  ~ total_points_agree
      (enhance_quiz_content clock
         (generate_enhanced_fallback_quiz (fun _ l => l) "Photosynthesis" "easy" 3
            "multiple-choice" "") "difficulty").
Proof.
  split; [apply fallback_total_points_agree; lia|].
  split; [reflexivity|]. split; [reflexivity|]. split; [reflexivity|].
  intros (total & Htotal & Hsum).
  assert (H300 : Some total = Some 300%Z) by (rewrite <- Htotal; reflexivity).
  assert (H450 : Some total = Some 450%Z) by (rewrite <- Hsum; reflexivity).
  congruence.
Qed.

(** ** Frequency tables *)

Lemma mem_spec (s : string) (l : list string) : PyStr.mem s l = true <-> In s l.
Proof.
  induction l as [|x l IH]; simpl.
  - split; [discriminate | intros []].
  - rewrite orb_true_iff, IH, String.eqb_eq. tauto.
Qed.

Lemma dict_get_key {V : Type} (d : list (string * V)) (k : string) :
  In k (map fst d) <-> exists v, dict_get d k = Some v.
Proof.
  induction d as [|[k' v'] d IH]; simpl.
  - split; [intros [] | intros [v H]; discriminate].
  - destruct (String.eqb_spec k' k) as [->|Hne].
    + split; [intros _; now exists v' | now left].
    + rewrite <- IH. split; [intros [H | H]; [contradiction | assumption] | now right].
Qed.

Lemma dict_get_set {V : Type} (d : list (string * V)) (k k' : string) (v : V) :
  dict_get (dict_set d k v) k' = if String.eqb k k' then Some v else dict_get d k'.
Proof.
  induction d as [|[k0 v0] d IH]; simpl.
  - reflexivity.
  - destruct (String.eqb_spec k0 k) as [->|Hne]; simpl.
    + destruct (String.eqb_spec k k'); reflexivity.
    + rewrite IH. destruct (String.eqb_spec k0 k') as [->|Hne'].
      * destruct (String.eqb_spec k k'); [congruence | reflexivity].
      * reflexivity.
Qed.

Lemma keys_dict_set {V : Type} (d : list (string * V)) (k k' : string) (v : V) :
  In k' (map fst (dict_set d k v)) <-> k' = k \/ In k' (map fst d).
Proof.
  rewrite !dict_get_key. setoid_rewrite dict_get_set.
  destruct (String.eqb_spec k k') as [->|Hne].
  - split; [now left | intros _; now exists v].
  - split; [now right | intros [H | H]; [congruence | assumption]].
Qed.

Lemma NoDup_dict_set {V : Type} (d : list (string * V)) (k : string) (v : V) :
  NoDup (map fst d) -> NoDup (map fst (dict_set d k v)).
Proof.
  induction d as [|[k0 v0] d IH]; simpl; intros Hnd.
  - repeat constructor. intros [].
  - inversion Hnd as [|? ? Hnotin Hnd']; subst.
    destruct (String.eqb_spec k0 k) as [->|Hne]; simpl.
    + now constructor.
    + constructor; [|now apply IH].
      rewrite keys_dict_set. intros [H | H]; [congruence | contradiction].
Qed.

Lemma occurrences_cons (w0 w : string) (words : list string) :
  occurrences (w0 :: words) w
  = ((if String.eqb w0 w then 1 else 0) + occurrences words w)%Z.
Proof.
  unfold occurrences. simpl.
  destruct (string_dec w0 w) as [->|Hne].
  - rewrite String.eqb_refl. lia.
  - rewrite (proj2 (String.eqb_neq w0 w) Hne). lia.
Qed.

Lemma occurrences_pos (words : list string) (w : string) :
  In w words <-> (0 < occurrences words w)%Z.
Proof.
  unfold occurrences. rewrite (count_occ_In string_dec). lia.
Qed.

(** The counting loop, from any table reached so far. *)
Lemma count_loop_spec (common_words words : list string) :
  forall d : list (string * Z),
    NoDup (map fst d) ->
    NoDup (map fst
      (fold_left
         (fun word_counts word =>
            if PyStr.mem word common_words then word_counts
            else dict_set word_counts word (dict_get_default word_counts word 0 + 1)%Z)
         words d)) /\
    forall w,
      (In w (map fst
         (fold_left
            (fun word_counts word =>
               if PyStr.mem word common_words then word_counts
               else dict_set word_counts word (dict_get_default word_counts word 0 + 1)%Z)
            words d))
       <-> In w (map fst d) \/ (In w words /\ ~ In w common_words)) /\
      dict_get_default
        (fold_left
           (fun word_counts word =>
              if PyStr.mem word common_words then word_counts
              else dict_set word_counts word (dict_get_default word_counts word 0 + 1)%Z)
           words d) w 0%Z
      = (dict_get_default d w 0
         + (if PyStr.mem w common_words then 0 else occurrences words w))%Z.
Proof.
  induction words as [|w0 words IH]; intros d Hnd; cbn [fold_left].
  - split; [exact Hnd|]. intros w. split; [simpl; tauto|].
    unfold occurrences. simpl. destruct (PyStr.mem w common_words); lia.
  - destruct (PyStr.mem w0 common_words) eqn:Hmem.
    + destruct (IH d Hnd) as [Hnd' Hw]. split; [exact Hnd'|].
      intros w. destruct (Hw w) as [Hkeys Hget]. split.
      * rewrite Hkeys. apply mem_spec in Hmem. simpl.
        split; [intros [H | [H1 H2]]; [now left | right; split; [now right | exact H2]]|].
        intros [H | [[-> | H1] H2]]; [now left | contradiction | right; now split].
      * rewrite Hget, occurrences_cons.
        destruct (PyStr.mem w common_words) eqn:Hw'; [reflexivity|].
        destruct (String.eqb_spec w0 w) as [->|Hne]; [congruence | lia].
    + assert (Hnotin : ~ In w0 common_words)
        by (rewrite <- mem_spec; congruence).
      destruct (IH (dict_set d w0 (dict_get_default d w0 0 + 1)%Z)
                   (NoDup_dict_set d w0 _ Hnd)) as [Hnd' Hw].
      split; [exact Hnd'|].
      intros w. destruct (Hw w) as [Hkeys Hget]. split.
      * rewrite Hkeys, keys_dict_set. simpl.
        split.
        -- intros [[-> | H] | [H1 H2]];
             [right; split; [now left | exact Hnotin] | now left
             | right; split; [now right | exact H2]].
        -- intros [H | [[-> | H1] H2]];
             [left; now right | left; now left | right; now split].
      * rewrite Hget, occurrences_cons. unfold dict_get_default at 1.
        rewrite dict_get_set.
        destruct (String.eqb_spec w0 w) as [->|Hne].
        -- rewrite Hmem. lia.
        -- fold (dict_get_default d w 0%Z). destruct (PyStr.mem w common_words); lia.
Qed.

Lemma count_words_spec (common_words words : list string) :
  NoDup (map fst (count_words common_words words)) /\
  forall w c,
    In (w, c) (count_words common_words words) <->
    In w words /\ ~ In w common_words /\ c = occurrences words w.
Proof.
  destruct (count_loop_spec common_words words [] (NoDup_nil _)) as [Hnd Hw].
  fold (count_words common_words words) in Hnd, Hw.
  split; [exact Hnd|]. intros w c.
  destruct (Hw w) as [Hkeys Hget]. simpl in Hkeys.
  assert (Hcommon : ~ In w common_words -> PyStr.mem w common_words = false).
  { intros H. apply not_true_false. now rewrite mem_spec. }
  split.
  - intros Hin.
    assert (Hk : In w (map fst (count_words common_words words)))
      by (apply (in_map fst _ (w, c)); exact Hin).
    apply Hkeys in Hk. destruct Hk as [[] | [Hwords Hnc]].
    split; [exact Hwords|]. split; [exact Hnc|].
    unfold dict_get_default in Hget.
    rewrite (dict_get_unique _ _ _ Hnd Hin), (Hcommon Hnc) in Hget. exact Hget.
  - intros (Hwords & Hnc & ->).
    assert (Hk : In w (map fst (count_words common_words words)))
      by (apply Hkeys; right; now split).
    apply dict_get_key in Hk. destruct Hk as [v Hv].
    unfold dict_get_default in Hget. rewrite Hv, (Hcommon Hnc) in Hget.
    apply dict_get_In. rewrite Hv. f_equal. exact Hget.
Qed.

(** ** Sorting by descending count *)

Lemma insert_desc_perm (x : string * Z) (l : list (string * Z)) :
  Permutation (x :: l) (insert_desc x l).
Proof.
  induction l as [|y l IH]; simpl; [reflexivity|].
  destruct (snd x <? snd y)%Z; [|reflexivity].
  rewrite perm_swap. now apply perm_skip.
Qed.

Lemma insert_desc_sorted (x : string * Z) (l : list (string * Z)) :
  StronglySorted desc l -> StronglySorted desc (insert_desc x l).
Proof.
  induction 1 as [|y l Hsorted IH Hall]; simpl.
  - repeat constructor.
  - destruct (Z.ltb_spec (snd x) (snd y)) as [Hlt | Hge].
    + constructor; [exact IH|].
      apply (Permutation_Forall (insert_desc_perm x l)).
      constructor; [unfold desc; lia | exact Hall].
    + constructor; [now constructor|].
      constructor; [exact Hge|].
      apply (Forall_impl _ (P := desc y)); [|exact Hall].
      intros z Hz. unfold desc in *. lia.
Qed.

Lemma sorted_desc_perm (items : list (string * Z)) :
  Permutation items (sorted_desc items).
Proof.
  induction items as [|x items IH]; simpl; [reflexivity|].
  rewrite <- insert_desc_perm. now apply perm_skip.
Qed.

Lemma sorted_desc_sorted (items : list (string * Z)) :
  StronglySorted desc (sorted_desc items).
Proof.
  induction items as [|x items IH]; simpl; [constructor|].
  now apply insert_desc_sorted.
Qed.

Lemma sorted_nth_error {A : Type} (R : A -> A -> Prop) (l : list A) :
  StronglySorted R l ->
  forall i j x y, (i < j)%nat -> nth_error l i = Some x -> nth_error l j = Some y -> R x y.
Proof.
  induction 1 as [|a l Hsorted IH Hall]; intros i j x y Hij Hi Hj.
  - destruct i; discriminate.
  - destruct j as [|j]; [lia|]. simpl in Hj. destruct i as [|i]; simpl in Hi.
    + injection Hi as <-. rewrite Forall_forall in Hall.
      apply Hall. now apply (nth_error_In l j).
    + apply (IH i j); [lia | assumption | assumption].
Qed.

Lemma sorted_firstn_skipn {A : Type} (R : A -> A -> Prop) (l : list A) :
  StronglySorted R l ->
  forall k x y, In x (firstn k l) -> In y (skipn k l) -> R x y.
Proof.
  induction 1 as [|a l Hsorted IH Hall]; intros k x y Hx Hy.
  - destruct k; destruct Hx.
  - destruct k as [|k]; simpl in *; [destruct Hx|].
    destruct Hx as [<- | Hx].
    + rewrite Forall_forall in Hall. apply Hall.
      rewrite <- (firstn_skipn k l). apply in_or_app. now right.
    + now apply (IH k).
Qed.

Lemma In_firstn {A : Type} (k : nat) (l : list A) (x : A) :
  In x (firstn k l) -> In x l.
Proof.
  intros H. rewrite <- (firstn_skipn k l). apply in_or_app. now left.
Qed.

Lemma nth_error_firstn_Some {A : Type} (k : nat) (l : list A) :
  forall i x, nth_error (firstn k l) i = Some x -> nth_error l i = Some x.
Proof.
  revert l. induction k as [|k IH]; intros [|a l] i x H; simpl in H;
    try (destruct i; discriminate).
  destruct i as [|i]; simpl in *; [exact H | now apply IH].
Qed.

Lemma NoDup_firstn {A : Type} (k : nat) (l : list A) :
  NoDup l -> NoDup (firstn k l).
Proof.
  intros H. rewrite <- (firstn_skipn k l) in H. now apply NoDup_app_remove_r in H.
Qed.

(** ** Potential topics *)

Lemma potential_topics_eq (round2 : float -> float) (set_order : list string -> list string)
    (text : string) (page_texts : list string) :
  potentialQuizTopics (analyze_pdf_content round2 set_order text page_texts)
  = map fst (firstn 5 (sorted_desc
                         (count_words topic_common_words (findall_capitalized text)))).
Proof.
  unfold analyze_pdf_content, extract_potential_topics. cbn [potentialQuizTopics].
  now rewrite firstn_map, firstn_firstn.
Qed.

Lemma ranked_entry (text w : string) (c : Z) :
  In (w, c) (sorted_desc (count_words topic_common_words (findall_capitalized text))) <->
  In w (findall_capitalized text) /\ ~ In w topic_common_words /\
  c = occurrences (findall_capitalized text) w.
Proof.
  rewrite <- (proj2 (count_words_spec topic_common_words (findall_capitalized text)) w c).
  split; apply Permutation_in;
    [apply Permutation_sym|]; apply sorted_desc_perm.
Qed.

Lemma In_skipn_length {A : Type} (k : nat) (l : list A) (x : A) :
  In x (skipn k l) -> (k < List.length l)%nat.
Proof.
  intros H. destruct (Nat.lt_ge_cases k (List.length l)) as [Hlt | Hge]; [exact Hlt|].
  rewrite (skipn_all2 l Hge) in H. destruct H.
Qed.

(** C8 (as amended).  The potential topics of an analysis are the first five
    of the extractor's ranking: at most five distinct words, each of them a
    whole word of the text made of a capital letter and at least three small
    letters and not a common word, in descending order of their number of
    occurrences; a word of that kind that is left out occurs no more often
    than any of the five that are kept. *)
Theorem potential_topics_top_five (round2 : float -> float)
    (set_order : list string -> list string) (text : string) (page_texts : list string) :
  let topics := potentialQuizTopics (analyze_pdf_content round2 set_order text page_texts) in
  let words := findall_capitalized text in
  topics = firstn 5 (extract_potential_topics text) /\
  (List.length topics <= 5)%nat /\
  NoDup topics /\
  (forall w, In w topics ->
             In w (PyStr.word_runs text) /\ is_capitalized_word w = true /\
             ~ In w topic_common_words) /\
  (forall i j wi wj,
      (i < j)%nat -> nth_error topics i = Some wi -> nth_error topics j = Some wj ->
      (occurrences words wj <= occurrences words wi)%Z) /\
  (forall w, In w words -> ~ In w topic_common_words -> ~ In w topics ->
             List.length topics = 5%nat /\
             forall w', In w' topics -> (occurrences words w <= occurrences words w')%Z).
Proof.
  intros topics words. subst topics words.
  rewrite potential_topics_eq.
  set (words := findall_capitalized text).
  set (ranked := sorted_desc (count_words topic_common_words words)).
  assert (Hentry : forall w c, In (w, c) ranked <->
                     In w words /\ ~ In w topic_common_words /\ c = occurrences words w)
    by (intros w c; apply ranked_entry).
  assert (Hsorted : StronglySorted desc ranked) by apply sorted_desc_sorted.
  assert (Hkept : forall w, In w (map fst (firstn 5 ranked)) ->
                    In (w, occurrences words w) (firstn 5 ranked)).
  { intros w Hw. apply in_map_iff in Hw. destruct Hw as ([w' c] & Hfst & Hin).
    simpl in Hfst. subst w'.
    pose proof (proj1 (Hentry w c) (In_firstn _ _ _ Hin)) as (_ & _ & ->). exact Hin. }
  split; [|split; [|split; [|split; [|split]]]].
  - unfold extract_potential_topics. fold words. fold ranked.
    now rewrite firstn_map, firstn_firstn.
  - rewrite length_map. apply firstn_le_length.
  - rewrite <- firstn_map. apply NoDup_firstn.
    apply (Permutation_NoDup (Permutation_map fst (sorted_desc_perm _))).
    apply count_words_spec.
  - intros w Hw. apply Hkept, In_firstn, Hentry in Hw.
    destruct Hw as (Hwords & Hcommon & _).
    apply filter_In in Hwords. tauto.
  - intros i j wi wj Hij Hi Hj.
    rewrite nth_error_map in Hi, Hj.
    destruct (nth_error (firstn 5 ranked) i) as [[wi' ci]|] eqn:Ei; [|discriminate].
    destruct (nth_error (firstn 5 ranked) j) as [[wj' cj]|] eqn:Ej; [|discriminate].
    simpl in Hi, Hj. injection Hi as ->. injection Hj as ->.
    apply nth_error_firstn_Some in Ei, Ej.
    pose proof (sorted_nth_error desc ranked Hsorted i j _ _ Hij Ei Ej) as Hdesc.
    apply nth_error_In, Hentry in Ei. apply nth_error_In, Hentry in Ej.
    destruct Ei as (_ & _ & ->). destruct Ej as (_ & _ & ->). exact Hdesc.
  - intros w Hwords Hcommon Hout.
    assert (Hin : In (w, occurrences words w) ranked) by (apply Hentry; tauto).
    rewrite <- (firstn_skipn 5 ranked) in Hin. apply in_app_or in Hin.
    destruct Hin as [Hin | Hin].
    + exfalso. apply Hout. now apply (in_map fst _ (w, occurrences words w)).
    + split.
      * rewrite length_map. apply firstn_length_le.
        apply In_skipn_length in Hin. lia.
      * intros w' Hw'. apply Hkept in Hw'.
        exact (sorted_firstn_skipn desc ranked Hsorted 5 _ _ Hw' Hin).
Qed.

(** ** Text analyzer *)

(** C7.  Analysing the empty text with no pages returns a result: zero pages,
    zero words, an average word length of 0 (by the guard on the words), low
    complexity and the level Non-Technical.  The sentence count is 1, not 0:
    splitting the empty text yields the one piece [""], so the guard on the
    sentences is never taken and the average sentence length is the rounded
    quotient [0 / 1]. *)
Theorem analyze_empty_text (round2 : float -> float) (set_order : list string -> list string) :
  split_sentences "" = [""] /\
  statistics (analyze_pdf_content round2 set_order "" [])
  = {| totalPages := 0; totalWords := 0; totalSentences := 1;
       averageWordLength := PInt 0;
       averageSentenceLength := PFloat (round2 0%float) |} /\
  complexity (contentAnalysis (analyze_pdf_content round2 set_order "" [])) = "low" /\
  technicalLevel (contentAnalysis (analyze_pdf_content round2 set_order "" []))
  = "Non-Technical".
Proof. repeat split. Qed.

(** C8, counterexample.  Six capitalized words occur once each: the extractor
    ranks all six, the analysis keeps five of them. *)
Lemma potential_topics_cut_at_five :
  extract_potential_topics "Alpha Bravo Charlie Delta Echo Foxtrot"
  = ["Alpha"; "Bravo"; "Charlie"; "Delta"; "Echo"; "Foxtrot"] /\
  potentialQuizTopics
    (analyze_pdf_content (fun x => x) (fun l => l) "Alpha Bravo Charlie Delta Echo Foxtrot" [])
  = ["Alpha"; "Bravo"; "Charlie"; "Delta"; "Echo"] /\
  potentialQuizTopics
    (analyze_pdf_content (fun x => x) (fun l => l) "Alpha Bravo Charlie Delta Echo Foxtrot" [])
  <> firstn 10 (extract_potential_topics "Alpha Bravo Charlie Delta Echo Foxtrot").
Proof.
  split; [reflexivity|]. split; [reflexivity|].
  vm_compute. discriminate.
Qed.

(** * Further properties of the engine *)

(** ** Technical level *)

(** X1.  The vocabulary has ten terms, so the count of terms found is at most
    ten and the level "Advanced Technical", which needs more than ten, is
    never returned; the level is "Non-Technical" exactly when no term occurs
    in the lower-cased text. *)
Theorem technical_level_never_advanced (text : string) :
  estimate_technical_level text <> "Advanced Technical" /\
  In (estimate_technical_level text)
     ["Intermediate Technical"; "Basic Technical"; "Non-Technical"] /\
  (estimate_technical_level text = "Non-Technical" <->
   forall term, In term technical_terms -> ~ occurs_in term (PyStr.lower text)).
Proof.
  unfold estimate_technical_level.
  set (found := filter (fun term => PyStr.contains term (PyStr.lower text)) technical_terms).
  assert (Hle : (List.length found <= 10)%nat)
    by (apply (filter_length_le _ technical_terms)).
  assert (Hzero : List.length found = 0%nat <->
                  forall term, In term technical_terms -> ~ occurs_in term (PyStr.lower text)).
  { split.
    - intros H term Hin Hocc. apply length_zero_iff_nil in H.
      assert (Hf : In term found) by (apply filter_In; split; [exact Hin | now apply contains_spec]).
      rewrite H in Hf. destruct Hf.
    - intros H. destruct found as [|term rest] eqn:E; [reflexivity|].
      assert (Hf : In term found) by (rewrite E; now left).
      apply filter_In in Hf. destruct Hf as [Hin Hc].
      exfalso. apply (H term Hin). now apply contains_spec. }
  destruct (Z.ltb_spec 10 (Z.of_nat (List.length found))); [lia|].
  destruct (Z.ltb_spec 5 (Z.of_nat (List.length found))).
  - split; [discriminate|]. split; [now left|].
    split; [discriminate | intros H'; apply Hzero in H'; lia].
  - destruct (Z.ltb_spec 0 (Z.of_nat (List.length found))).
    + split; [discriminate|]. split; [right; now left|].
      split; [discriminate | intros H'; apply Hzero in H'; lia].
    + split; [discriminate|]. split; [right; right; now left|].
      split; [intros _; apply Hzero; lia | reflexivity].
Qed.

(** ** Learning objectives *)

Lemma occurs_in_middle (a p b : string) : occurs_in p (a ++ p ++ b).
Proof. now exists a, b. Qed.

Lemma learning_objectives_length (topic : string) (n : Z) :
  Z.of_nat (List.length (generate_learning_objectives topic n))
  = (if (0 <=? n)%Z then Z.min n 8 else Z.max 0 (8 + n))%Z.
Proof.
  unfold generate_learning_objectives, slice_to. cbn [List.length].
  change (Z.of_nat 8) with 8%Z.
  destruct (Z.leb_spec 0 (Z.min n 8)), (Z.leb_spec 0 n); try lia;
    rewrite length_firstn; cbn [List.length]; lia.
Qed.

(** X2.  The objective list is a prefix of the eight templates: [min(n, 8)]
    objectives for [n >= 0] and, by the rule of negative slice bounds,
    [max(0, 8 + n)] for a negative [n]; every objective names the topic. *)
Theorem learning_objectives_count (topic : string) (n : Z) :
  Z.of_nat (List.length (generate_learning_objectives topic n))
  = (if (0 <=? n)%Z then Z.min n 8 else Z.max 0 (8 + n))%Z /\
  forall objective,
    In objective (generate_learning_objectives topic n) -> occurs_in topic objective.
Proof.
  split; [apply learning_objectives_length|].
  unfold generate_learning_objectives, slice_to. cbn [List.length].
  change (Z.of_nat 8) with 8%Z.
  intros objective Hin.
  assert (Hall : In objective
    [ "Understand the fundamental concepts of " ++ topic;
      "Identify key components and their relationships within " ++ topic;
      "Apply knowledge of " ++ topic ++ " to solve basic problems";
      "Analyze different aspects of " ++ topic ++ " and their implications";
      "Evaluate the importance and applications of " ++ topic;
      "Synthesize information about " ++ topic ++ " to form comprehensive understanding";
      "Develop critical thinking skills related to " ++ topic;
      "Recognize common misconceptions about " ++ topic ]).
  { destruct (0 <=? Z.min n 8)%Z; exact (In_firstn _ _ _ Hin). }
  clear Hin. cbn [In] in Hall.
  repeat (destruct Hall as [<- | Hall];
          [first [apply occurs_in_suffix | apply occurs_in_middle]|]).
  destruct Hall.
Qed.

(** ** Slugs *)




(** ** Sentence statistics *)

Lemma pieces_not_nil (sep : ascii -> bool) (s : string) :
  forall in_sep, PyStr.pieces sep in_sep s <> [].
Proof.
  induction s as [|c s IH]; intros in_sep; simpl; [discriminate|].
  destruct (sep c).
  - destruct in_sep; [apply IH | discriminate].
  - destruct (PyStr.pieces sep false s); discriminate.
Qed.

(** X4.  Every text has at least one sentence piece, so the average sentence
    length is always the rounded quotient of the two counts and the guard for
    an empty sentence list is never taken; a text without words has the
    average word length 0 and low complexity. *)
Theorem sentence_count_positive (round2 : float -> float)
    (set_order : list string -> list string) (text : string) (page_texts : list string) :
  (1 <= totalSentences (statistics (analyze_pdf_content round2 set_order text page_texts)))%Z /\
  averageSentenceLength (statistics (analyze_pdf_content round2 set_order text page_texts))
  = PFloat (round2 (truediv
      (totalWords (statistics (analyze_pdf_content round2 set_order text page_texts)))
      (totalSentences (statistics (analyze_pdf_content round2 set_order text page_texts))))) /\
  (totalWords (statistics (analyze_pdf_content round2 set_order text page_texts)) = 0%Z ->
   averageWordLength (statistics (analyze_pdf_content round2 set_order text page_texts))
   = PInt 0 /\
   complexity (contentAnalysis (analyze_pdf_content round2 set_order text page_texts)) = "low").
Proof.
  unfold analyze_pdf_content. cbn [statistics contentAnalysis totalSentences totalWords
    averageSentenceLength averageWordLength complexity].
  pose proof (pieces_not_nil is_sentence_end text false) as Hne.
  fold (split_sentences text) in Hne.
  destruct (split_sentences text) as [|s0 rest] eqn:E; [contradiction|].
  split; [unfold len; cbn [List.length]; lia|]. split; [reflexivity|].
  intros Hwords. unfold len in Hwords.
  destruct (PyStr.split text) as [|w ws]; [now split | discriminate Hwords].
Qed.

(** ** Words of a concatenation *)

Lemma words_flag (sep : ascii -> bool) (s : string) :
  filter PyStr.nonempty (PyStr.pieces sep true s)
  = filter PyStr.nonempty (PyStr.pieces sep false s).
Proof.
  destruct s as [|c s]; [reflexivity|]. simpl. now destruct (sep c).
Qed.

Lemma pieces_cons (sep : ascii -> bool) (s : string) :
  forall in_sep,
    PyStr.pieces sep in_sep s
    = hd "" (PyStr.pieces sep in_sep s) :: tl (PyStr.pieces sep in_sep s).
Proof.
  intros in_sep. pose proof (pieces_not_nil sep s in_sep) as H.
  now destruct (PyStr.pieces sep in_sep s).
Qed.

(** Appending a separator and a tail leaves the first piece as it is and adds
    the tail's words after the words of the other pieces. *)
Lemma pieces_app_sep (sep : ascii -> bool) (c : ascii) (t : string) :
  sep c = true ->
  forall a,
    hd "" (PyStr.pieces sep false (a ++ String c t)) = hd "" (PyStr.pieces sep false a) /\
    filter PyStr.nonempty (tl (PyStr.pieces sep false (a ++ String c t)))
    = (filter PyStr.nonempty (tl (PyStr.pieces sep false a))
       ++ filter PyStr.nonempty (PyStr.pieces sep false t))%list.
Proof.
  intros Hc. induction a as [|x a [IHhd IHtl]].
  - simpl. rewrite Hc. simpl. split; [reflexivity | apply words_flag].
  - cbn [append PyStr.pieces]. destruct (sep x) eqn:Hx.
    + cbn [hd tl]. split; [reflexivity|].
      rewrite !(words_flag sep).
      rewrite (pieces_cons sep (a ++ String c t) false), (pieces_cons sep a false).
      cbn [filter]. rewrite IHhd, IHtl.
      destruct (PyStr.nonempty (hd "" (PyStr.pieces sep false a))); reflexivity.
    + rewrite (pieces_cons sep (a ++ String c t) false), (pieces_cons sep a false).
      cbn [hd tl]. now rewrite IHhd, IHtl.
Qed.

Lemma split_app_space (a t : string) (c : ascii) :
  PyStr.isspace c = true ->
  PyStr.split (a ++ String c t) = (PyStr.split a ++ PyStr.split t)%list.
Proof.
  intros Hc. unfold PyStr.split.
  destruct (pieces_app_sep PyStr.isspace c t Hc a) as [Hhd Htl].
  rewrite (pieces_cons PyStr.isspace (a ++ String c t) false),
          (pieces_cons PyStr.isspace a false).
  cbn [filter]. rewrite Hhd, Htl.
  destruct (PyStr.nonempty (hd "" (PyStr.pieces PyStr.isspace false a))); reflexivity.
Qed.

(** ** Comprehensive enhancement *)

Lemma enhance_question_explanation (title category : option string) (i : nat) (q : Question.t) :
  Question.explanation (enhance_question title category (i, q))
  = option_map enhance_explanation (Question.explanation q).
Proof.
  destruct q as [text type options answer explanation points limit difficulty cat tags tip].
  now destruct tip, tags, explanation.
Qed.

Lemma enhance_explanation_long (explanation : string) :
  (10 <= List.length (PyStr.split (enhance_explanation explanation)))%nat.
Proof.
  unfold enhance_explanation.
  destruct (Nat.ltb_spec (List.length (PyStr.split explanation)) 10) as [Hlt | Hge];
    [|exact Hge].
  rewrite split_app_space by reflexivity.
  rewrite length_app. simpl. lia.
Qed.

(** X5.  An explanation of fewer than ten words gets the fixed sentence
    appended and then has at least ten words; one of ten words or more is
    returned as it is.  So enhancing an enhanced explanation changes nothing,
    and a second comprehensive pass over a quiz leaves every explanation as
    the first pass left it. *)
Theorem enhance_explanation_idempotent (explanation : string) :
  (10 <= List.length (PyStr.split (enhance_explanation explanation)))%nat /\
  ((10 <= List.length (PyStr.split explanation))%nat ->
   enhance_explanation explanation = explanation) /\
  enhance_explanation (enhance_explanation explanation) = enhance_explanation explanation /\
  forall (clock clock' : nat -> string) (quiz : Quiz.t),
    map Question.explanation
        (Quiz.get_questions
           (enhance_quiz_content clock'
              (enhance_quiz_content clock quiz "comprehensive") "comprehensive"))
    = map Question.explanation
          (Quiz.get_questions (enhance_quiz_content clock quiz "comprehensive")).
Proof.
  assert (Hkeep : forall e, (10 <= List.length (PyStr.split e))%nat ->
                            enhance_explanation e = e).
  { intros e He. unfold enhance_explanation.
    destruct (Nat.ltb_spec (List.length (PyStr.split e)) 10); [lia | reflexivity]. }
  assert (Hidem : forall e, enhance_explanation (enhance_explanation e)
                            = enhance_explanation e)
    by (intros e; apply Hkeep, enhance_explanation_long).
  split; [apply enhance_explanation_long|]. split; [apply Hkeep|].
  split; [apply Hidem|].
  intros clock clock' quiz. rewrite (comprehensive_questions clock').
  unfold enumerate at 1.
  rewrite (map_combine_seq_ext _ Question.explanation
             (fun q => option_map enhance_explanation (Question.explanation q)))
    by (intros i q; apply enhance_question_explanation).
  rewrite comprehensive_questions. unfold enumerate.
  rewrite (map_combine_seq_ext _
             (fun q => option_map enhance_explanation (Question.explanation q))
             (fun q => option_map enhance_explanation (Question.explanation q))).
  - rewrite (map_combine_seq_ext _ Question.explanation
               (fun q => option_map enhance_explanation (Question.explanation q)))
      by (intros i q; apply enhance_question_explanation).
    reflexivity.
  - intros i q. rewrite enhance_question_explanation.
    destruct (Question.explanation q) as [e|]; [|reflexivity].
    simpl. now rewrite Hidem.
Qed.

(** X6.  The comprehensive mode is not idempotent on the quiz text: each pass
    puts one more "Enhanced: " in front of the title and appends the
    enhancement note to the description once more; it keeps the number of
    questions and an existing list of learning objectives. *)
Theorem comprehensive_mode_accumulates (clock clock' : nat -> string) (quiz : Quiz.t) :
  Quiz.title (enhance_quiz_content clock quiz "comprehensive")
  = option_map (fun title => "Enhanced: " ++ title) (Quiz.title quiz) /\
  Quiz.title (enhance_quiz_content clock'
                (enhance_quiz_content clock quiz "comprehensive") "comprehensive")
  = option_map (fun title => "Enhanced: Enhanced: " ++ title) (Quiz.title quiz) /\
  Quiz.description (enhance_quiz_content clock'
                      (enhance_quiz_content clock quiz "comprehensive") "comprehensive")
  = option_map
      (fun description =>
         (description ++ PyStr.nl ++ PyStr.nl
          ++ "This quiz has been enhanced with additional explanations, varied difficulty levels, and educational tips.")
         ++ PyStr.nl ++ PyStr.nl
         ++ "This quiz has been enhanced with additional explanations, varied difficulty levels, and educational tips.")
      (Quiz.description quiz) /\
  List.length (Quiz.get_questions (enhance_quiz_content clock quiz "comprehensive"))
  = List.length (Quiz.get_questions quiz) /\
  (forall objectives,
      Quiz.learningObjectives quiz = Some objectives ->
      Quiz.learningObjectives (enhance_quiz_content clock quiz "comprehensive")
      = Some objectives) /\
  (Quiz.learningObjectives quiz = None ->
   exists objectives,
     Quiz.learningObjectives (enhance_quiz_content clock quiz "comprehensive")
     = Some objectives /\ List.length objectives = 3%nat).
Proof.
  split; [|split; [|split; [|split; [|split]]]].
  - destruct quiz as [title description category difficulty time total objectives questions tags meta].
    now destruct title, description, objectives.
  - destruct quiz as [title description category difficulty time total objectives questions tags meta].
    now destruct title, description, objectives.
  - destruct quiz as [title description category difficulty time total objectives questions tags meta].
    now destruct title, description, objectives.
  - rewrite comprehensive_questions. now rewrite length_map, length_enumerate.
  - intros objectives H.
    destruct quiz as [title description category difficulty time total objectives' questions tags meta].
    simpl in H. subst objectives'. now destruct title, description.
  - intros H.
    destruct quiz as [title description category difficulty time total objectives' questions tags meta].
    simpl in H. subst objectives'.
    destruct title, description; eexists; (split; [reflexivity|]);
      apply Nat2Z.inj; exact (learning_objectives_length _ 3).
Qed.

(** ** Enhancement metadata *)



(** X8.  Every mode other than "difficulty", the unknown ones included, keeps
    the agreement of [totalPoints] with the sum of the questions' points. *)
Theorem other_modes_keep_total_points (clock : nat -> string) (quiz : Quiz.t) (mode : string) :
  mode <> "difficulty" ->
  total_points_agree quiz ->
  total_points_agree (enhance_quiz_content clock quiz mode).
Proof.
  intros Hmode Hagree.
  destruct (String.eqb_spec mode "explanations") as [-> | Hexp];
    [now apply explanations_keep_total_points|].
  destruct (String.eqb_spec mode "comprehensive") as [-> | Hcomp];
    [now apply comprehensive_keeps_total_points|].
  destruct Hagree as (total & Htotal & Hsum). exists total.
  unfold enhance_quiz_content.
  rewrite (proj2 (String.eqb_neq _ _) Hexp), (proj2 (String.eqb_neq _ _) Hmode),
          (proj2 (String.eqb_neq _ _) Hcomp).
  split; [exact Htotal | exact Hsum].
Qed.

Lemma other_modes_keep_total_points_witness :
  "comprehensive" <> "difficulty" /\
  total_points_agree
    (generate_enhanced_fallback_quiz (fun _ l => l) "Tea" "medium" 2 "multiple-choice" "") /\
  total_points_agree
    (enhance_quiz_content (fun _ => "2024-01-01T00:00:00")
       (generate_enhanced_fallback_quiz (fun _ l => l) "Tea" "medium" 2 "multiple-choice" "")
       "comprehensive").
Proof.
  assert (Hmode : "comprehensive" <> "difficulty") by discriminate.
  assert (Hagree : total_points_agree
            (generate_enhanced_fallback_quiz (fun _ l => l) "Tea" "medium" 2
               "multiple-choice" ""))
    by (apply fallback_total_points_agree; lia).
  split; [exact Hmode|]. split; [exact Hagree|].
  exact (other_modes_keep_total_points (fun _ => "2024-01-01T00:00:00") _ "comprehensive"
           Hmode Hagree).
Defined.

(** ** Question generator *)

Lemma nth_error_questions_fallback (topic question_type : string) (count : Z)
    (difficulty : string) (i : nat) :
  (i < Z.to_nat count)%nat ->
  exists aspect,
    nth_error (generate_aspects_from_topic topic count) i = Some aspect /\
    nth (i mod List.length (generate_aspects_from_topic topic count))
        (generate_aspects_from_topic topic count) "" = aspect /\
    nth_error (generate_questions_fallback topic question_type count difficulty) i
    = Some (plain_question topic question_type difficulty
              (generate_aspects_from_topic topic count) i).
Proof.
  intros Hi.
  assert (Hlen : List.length (generate_aspects_from_topic topic count) = Z.to_nat count)
    by (apply length_generate_aspects; lia).
  destruct (nth_error (generate_aspects_from_topic topic count) i) as [aspect|] eqn:E.
  - exists aspect. split; [reflexivity|]. split.
    + rewrite Hlen, Nat.mod_small by assumption. now apply nth_error_nth.
    + unfold generate_questions_fallback. now apply nth_error_map_range.
  - apply nth_error_None in E. lia.
Qed.

Lemma length_questions_fallback (topic question_type : string) (count : Z)
    (difficulty : string) :
  List.length (generate_questions_fallback topic question_type count difficulty)
  = Z.to_nat count.
Proof.
  unfold generate_questions_fallback. now rewrite length_map, length_range.
Qed.

(** X9.  The question generator returns [count] questions, none for a count
    of zero or less.  Question [i] is about aspect [i] of the topic: its four
    options are the key concepts A to D about that aspect, the answer index is
    0, and it carries neither tags nor an educational tip. *)
Theorem questions_fallback_shape (topic question_type : string) (count : Z)
    (difficulty : string) :
  List.length (generate_questions_fallback topic question_type count difficulty)
  = Z.to_nat count /\
  ((count <= 0)%Z ->
   generate_questions_fallback topic question_type count difficulty = []) /\
  forall i q,
    nth_error (generate_questions_fallback topic question_type count difficulty) i = Some q ->
    exists aspect,
      nth_error (generate_aspects_from_topic topic count) i = Some aspect /\
      Question.question q
      = Some ("What is important to know about " ++ aspect ++ " in " ++ topic ++ "?") /\
      Question.options q
      = Some [ "Key concept A about " ++ aspect; "Key concept B about " ++ aspect;
               "Key concept C about " ++ aspect; "Key concept D about " ++ aspect ] /\
      Question.correctAnswer q = Some 0%Z /\
      Question.type q = Some question_type /\
      Question.difficulty q = Some difficulty /\
      Question.tags q = None /\
      Question.educationalTip q = None.
Proof.
  split; [apply length_questions_fallback|]. split.
  - intros Hcount. apply length_zero_iff_nil. rewrite length_questions_fallback. lia.
  - intros i q Hq.
    assert (Hi : (i < Z.to_nat count)%nat).
    { rewrite <- (length_questions_fallback topic question_type count difficulty).
      apply nth_error_Some. now rewrite Hq. }
    destruct (nth_error_questions_fallback topic question_type count difficulty i Hi)
      as (aspect & Haspect & Hnth & Hq').
    rewrite Hq' in Hq. injection Hq as <-.
    exists aspect. split; [exact Haspect|].
    unfold plain_question. simpl. rewrite Hnth. repeat split.
Qed.

Lemma points_map_known (difficulty : string) :
  In difficulty ["easy"; "medium"; "hard"] ->
  dict_get_default points_map difficulty 100%Z = points_for difficulty /\
  dict_get_default time_map difficulty 30%Z = time_for difficulty.
Proof.
  simpl. intros [<- | [<- | [<- | []]]]; now split.
Qed.

Lemma points_unknown (difficulty : string) :
  ~ In difficulty ["easy"; "medium"; "hard"] ->
  dict_get_default points_map difficulty 100%Z = 100%Z /\
  dict_get_default time_map difficulty 30%Z = 30%Z /\
  points_for difficulty = 200%Z /\ time_for difficulty = 60%Z.
Proof.
  intros H.
  assert (He : difficulty <> "easy") by (intros ->; apply H; simpl; tauto).
  assert (Hm : difficulty <> "medium") by (intros ->; apply H; simpl; tauto).
  assert (Hh : difficulty <> "hard") by (intros ->; apply H; simpl; tauto).
  unfold dict_get_default, points_map, time_map, points_for, time_for.
  rewrite !(unknown_difficulty_get difficulty) by assumption.
  rewrite (proj2 (String.eqb_neq _ _) He), (proj2 (String.eqb_neq _ _) Hm).
  repeat split.
Qed.

(** X10.  The quiz assembler and the question generator give a question the
    same points and time limit for the difficulties easy, medium and hard.
    For any other difficulty they differ: the assembler falls back to 100
    points and 30 seconds, the generator to 200 points and 60 seconds. *)
Theorem generators_differ_on_unknown_difficulty
    (rng : nat -> list string -> list string) (topic difficulty : string) (n : Z)
    (quiz_type context topic' question_type : string) (count : Z) (q1 q2 : Question.t) :
  In q1 (Quiz.get_questions
           (generate_enhanced_fallback_quiz rng topic difficulty n quiz_type context)) ->
  In q2 (generate_questions_fallback topic' question_type count difficulty) ->
  (In difficulty ["easy"; "medium"; "hard"] ->
   Question.points q1 = Question.points q2 /\
   Question.timeLimit q1 = Question.timeLimit q2) /\
  (~ In difficulty ["easy"; "medium"; "hard"] ->
   Question.points q1 = Some 100%Z /\ Question.timeLimit q1 = Some 30%Z /\
   Question.points q2 = Some 200%Z /\ Question.timeLimit q2 = Some 60%Z).
Proof.
  intros H1 H2.
  apply In_fallback_questions in H1. destruct H1 as (i & ->).
  unfold generate_questions_fallback in H2. apply in_map_iff in H2.
  destruct H2 as (j & <- & _).
  unfold fallback_question, plain_question.
  cbn [Question.points Question.timeLimit]. split.
  - intros Hknown. destruct (points_map_known difficulty Hknown) as [-> ->]. now split.
  - intros Hunknown. destruct (points_unknown difficulty Hunknown) as (-> & -> & -> & ->).
    repeat split.
Qed.

Lemma generators_differ_on_unknown_difficulty_witness :
  exists q1 q2,
    In q1 (Quiz.get_questions
             (generate_enhanced_fallback_quiz (fun _ l => l) "Tea" "expert" 1
                "multiple-choice" "")) /\
    In q2 (generate_questions_fallback "Tea" "multiple-choice" 1 "expert") /\
    Question.points q1 = Some 100%Z /\ Question.timeLimit q1 = Some 30%Z /\
    Question.points q2 = Some 200%Z /\ Question.timeLimit q2 = Some 60%Z.
Proof.
  eexists. eexists.
  assert (H1 : In (fallback_question (fun l => l) "Tea" "expert" "multiple-choice"
                     (generate_aspects_from_topic "Tea" 1) 0)
                  (Quiz.get_questions
                     (generate_enhanced_fallback_quiz (fun _ l => l) "Tea" "expert" 1
                        "multiple-choice" "")))
    by (left; reflexivity).
  assert (H2 : In (plain_question "Tea" "multiple-choice" "expert"
                     (generate_aspects_from_topic "Tea" 1) 0)
                  (generate_questions_fallback "Tea" "multiple-choice" 1 "expert"))
    by (left; reflexivity).
  split; [exact H1|]. split; [exact H2|].
  apply (generators_differ_on_unknown_difficulty (fun _ l => l) "Tea" "expert" 1
           "multiple-choice" "" "Tea" "multiple-choice" 1 _ _ H1 H2).
  simpl. intros H. repeat (destruct H as [H | H]; [discriminate H|]). exact H.
Defined.

(** ** Post-processing of a provider's quiz *)

Lemma sum_points_or_100_eq (questions : list Question.t) :
  sum_points_or_100 questions
  = fold_right Z.add 0%Z (map (fun q => get_or (Question.points q) 100%Z) questions).
Proof.
  unfold sum_points_or_100. apply fold_symmetric; intros; lia.
Qed.

Lemma sum_points_completed (topic difficulty quiz_type : string) (questions : list Question.t) :
  forall start,
    sum_points (map (complete_question topic difficulty quiz_type)
                    (combine (seq start (List.length questions)) questions))
    = Some (fold_right Z.add 0%Z
              (map (fun q => get_or (Question.points q) (points_for difficulty)) questions)).
Proof.
  induction questions as [|q questions IH]; intros start; [reflexivity|].
  cbn [List.length seq combine map sum_points fold_right complete_question Question.points].
  now rewrite IH.
Qed.

Lemma points_for_easy (difficulty : string) :
  (100 <= points_for difficulty)%Z /\ (points_for difficulty = 100%Z <-> difficulty = "easy").
Proof.
  unfold points_for. destruct (String.eqb_spec difficulty "easy") as [-> | He].
  - split; [lia | tauto].
  - destruct (String.eqb difficulty "medium"); (split; [lia|]); split; (lia || contradiction).
Qed.

(** Filling missing points with [p >= 100] instead of 100 gives the same sum
    exactly when [p] is 100 or no points are missing. *)
Lemma sums_with_defaults (p : Z) (questions : list Question.t) :
  (100 <= p)%Z ->
  (fold_right Z.add 0 (map (fun q => get_or (Question.points q) 100) questions)
   <= fold_right Z.add 0 (map (fun q => get_or (Question.points q) p) questions))%Z /\
  (fold_right Z.add 0%Z (map (fun q => get_or (Question.points q) 100%Z) questions)
   = fold_right Z.add 0%Z (map (fun q => get_or (Question.points q) p) questions)
   <-> p = 100%Z \/ forall q, In q questions -> Question.points q <> None).
Proof.
  intros Hp. induction questions as [|q questions [IHle IHeq]].
  - simpl. split; [lia|]. split; [intros _; right; intros q [] | reflexivity].
  - cbn [map fold_right]. destruct (Question.points q) as [v|] eqn:Hq; cbn [get_or].
    + split; [lia|]. split.
      * intros H. assert (H' : fold_right Z.add 0%Z
                                 (map (fun q => get_or (Question.points q) 100%Z) questions)
                               = fold_right Z.add 0%Z
                                   (map (fun q => get_or (Question.points q) p) questions))
          by lia.
        apply IHeq in H'. destruct H' as [H' | H']; [now left | right].
        intros q' [<- | Hin]; [congruence | now apply H'].
      * intros [H | H].
        -- f_equal. apply IHeq. now left.
        -- f_equal. apply IHeq. right. intros q' Hin. apply H. now right.
    + split; [lia|]. split.
      * intros H. left. lia.
      * intros [H | H].
        -- now subst p.
        -- exfalso. apply (H q); [now left | exact Hq].
Qed.

(** X11.  When the provider's quiz has no [totalPoints], the total is summed
    before the questions are completed, with 100 for a question without
    points, while such a question then gets the points of the requested
    difficulty.  The returned total therefore agrees with the returned
    questions exactly when the difficulty is easy or every question came with
    points. *)
Theorem provider_total_points (now : string) (quiz_data : Quiz.t)
    (topic difficulty : string) (num_questions : Z) (quiz_type : string) :
  Quiz.totalPoints quiz_data = None ->
  (total_points_agree
     (enhance_quiz_data now quiz_data topic difficulty num_questions quiz_type)
   <-> difficulty = "easy" \/
       forall q, In q (Quiz.get_questions quiz_data) -> Question.points q <> None).
Proof.
  intros Hnone.
  destruct (points_for_easy difficulty) as [Hge Heasy].
  destruct (sums_with_defaults (points_for difficulty) (Quiz.get_questions quiz_data) Hge)
    as [_ Hsums].
  rewrite <- Heasy, <- Hsums.
  assert (Htotal : Quiz.totalPoints
                     (enhance_quiz_data now quiz_data topic difficulty num_questions quiz_type)
                   = Some (sum_points_or_100 (Quiz.get_questions quiz_data)))
    by (unfold enhance_quiz_data; cbn [Quiz.totalPoints]; now rewrite Hnone).
  assert (Hsum : sum_points
                   (Quiz.get_questions
                      (enhance_quiz_data now quiz_data topic difficulty num_questions quiz_type))
                 = Some (fold_right Z.add 0%Z
                           (map (fun q => get_or (Question.points q) (points_for difficulty))
                                (Quiz.get_questions quiz_data)))).
  { unfold enhance_quiz_data, Quiz.get_questions at 1. cbn [Quiz.questions].
    unfold Quiz.get_questions. destruct (Quiz.questions quiz_data) as [questions|];
      [apply sum_points_completed | reflexivity]. }
  unfold total_points_agree. rewrite Htotal, Hsum, sum_points_or_100_eq. split.
  - intros (total & H1 & H2). congruence.
  - intros H. eexists. split; [reflexivity | now rewrite H].
Qed.

Lemma provider_total_points_witness :
  ~ total_points_agree
      (enhance_quiz_data "2024-01-01T00:00:00"
         (Quiz.mk None None None None None None None
            (Some [Question.mk (Some "Why?") None None None None None None None None None None])
            None None)
         "Tea" "medium" 1 "multiple-choice").
Proof.
  intros H.
  destruct (proj1 (provider_total_points "2024-01-01T00:00:00"
                     (Quiz.mk None None None None None None None
                        (Some [Question.mk (Some "Why?") None None None None None None None
                                 None None None])
                        None None)
                     "Tea" "medium" 1 "multiple-choice" eq_refl) H) as [H' | H'].
  - discriminate H'.
  - apply (H' (Question.mk (Some "Why?") None None None None None None None None None None)).
    + left. reflexivity.
    + reflexivity.
Defined.

Lemma nth_error_completed (now : string) (quiz_data : Quiz.t)
    (topic difficulty : string) (num_questions : Z) (quiz_type : string) (i : nat) :
  nth_error (Quiz.get_questions
               (enhance_quiz_data now quiz_data topic difficulty num_questions quiz_type)) i
  = option_map (fun q => complete_question topic difficulty quiz_type (i, q))
               (nth_error (Quiz.get_questions quiz_data) i).
Proof.
  unfold enhance_quiz_data, Quiz.get_questions at 1. cbn [Quiz.questions].
  unfold Quiz.get_questions. destruct (Quiz.questions quiz_data) as [questions|].
  - apply nth_error_map_enumerate.
  - now destruct i.
Qed.

(** X12.  Post-processing never overwrites what the provider supplied and
    fills what is missing: the question at each position keeps its text,
    options, answer index and every present value of type, explanation,
    points, time limit, difficulty and tip, and an absent one of these gets
    its default (the points and time limit of the requested difficulty); the
    number of questions is unchanged. *)
Theorem provider_questions_completed (now : string) (quiz_data : Quiz.t)
    (topic difficulty : string) (num_questions : Z) (quiz_type : string) :
  List.length (Quiz.get_questions
                 (enhance_quiz_data now quiz_data topic difficulty num_questions quiz_type))
  = List.length (Quiz.get_questions quiz_data) /\
  forall i q,
    nth_error (Quiz.get_questions quiz_data) i = Some q ->
    exists q',
      nth_error (Quiz.get_questions
                   (enhance_quiz_data now quiz_data topic difficulty num_questions quiz_type)) i
      = Some q' /\
      Question.question q' = Question.question q /\
      Question.options q' = Question.options q /\
      Question.correctAnswer q' = Question.correctAnswer q /\
      (forall v, Question.points q = Some v -> Question.points q' = Some v) /\
      (Question.points q = None -> Question.points q' = Some (points_for difficulty)) /\
      (forall v, Question.timeLimit q = Some v -> Question.timeLimit q' = Some v) /\
      (Question.timeLimit q = None -> Question.timeLimit q' = Some (time_for difficulty)) /\
      (forall v, Question.difficulty q = Some v -> Question.difficulty q' = Some v) /\
      (Question.difficulty q = None -> Question.difficulty q' = Some difficulty) /\
      (forall v, Question.type q = Some v -> Question.type q' = Some v) /\
      (Question.type q = None -> Question.type q' = Some quiz_type) /\
      (forall v, Question.explanation q = Some v -> Question.explanation q' = Some v) /\
      (Question.explanation q = None ->
       Question.explanation q' = Some "Refer to course materials for detailed explanation.") /\
      (forall v, Question.educationalTip q = Some v -> Question.educationalTip q' = Some v) /\
      (Question.educationalTip q = None ->
       Question.educationalTip q'
       = Some (generate_educational_tip topic ("concept " ++ PyStr.of_nat (i + 1)))).
Proof.
  split.
  - destruct quiz_data as [title description category level time total objectives questions
                             tags meta].
    destruct questions as [questions|]; [|reflexivity].
    unfold enhance_quiz_data, Quiz.get_questions. cbn [Quiz.questions option_map].
    now rewrite length_map, length_enumerate.
  - intros i q Hq. exists (complete_question topic difficulty quiz_type (i, q)).
    rewrite nth_error_completed, Hq. split; [reflexivity|].
    unfold complete_question.
    cbn [Question.question Question.options Question.correctAnswer Question.points
         Question.timeLimit Question.difficulty Question.type Question.explanation
         Question.educationalTip].
    repeat split; intros; match goal with H : _ = _ |- _ => now rewrite H end.
Qed.

(** ** The quiz handler *)

Lemma total_points_agree_set_metadata (quiz : Quiz.t) (metadata : list (string * meta_value)) :
  total_points_agree quiz -> total_points_agree (Quiz.set_metadata quiz metadata).
Proof. intros (total & Htotal & Hsum). now exists total. Qed.





(** ** The questions handler *)


(** X16.  On both paths of the questions handler every returned question
    carries the requested difficulty with its points and time limit (100 and
    30 for easy, 150 and 45 for medium, 200 and 60 for anything else): the
    fallback builds them so, and a provider's questions are overwritten with
    them. *)
Theorem generate_questions_levels (client : option questions_provider) (now : string)
    (request : QuestionsRequest.t) (message : string) (result : QuestionsData.t)
    (q : Question.t) :
  generate_questions client now (Some request) = Success message result ->
  In q (QuestionsData.questions result) ->
  Question.difficulty q = Some (get_or (QuestionsRequest.difficulty request) "medium") /\
  Question.points q
  = Some (points_for (get_or (QuestionsRequest.difficulty request) "medium")) /\
  Question.timeLimit q
  = Some (time_for (get_or (QuestionsRequest.difficulty request) "medium")).
Proof.
  unfold generate_questions.
  destruct (negb (PyStr.nonempty (PyStr.strip (get_or (QuestionsRequest.topic request) ""))));
    [discriminate|].
  assert (Hfallback : forall topic question_type count difficulty,
             In q (generate_questions_fallback topic question_type count difficulty) ->
             Question.difficulty q = Some difficulty /\
             Question.points q = Some (points_for difficulty) /\
             Question.timeLimit q = Some (time_for difficulty)).
  { intros topic question_type count difficulty Hin.
    unfold generate_questions_fallback in Hin. apply in_map_iff in Hin.
    destruct Hin as (i & <- & _). repeat split. }
  destruct client as [client|].
  - unfold generate_questions_with_openai.
    destruct (client _ _ _ _ _) as [questions|].
    + intros [= _ <-]. cbn [QuestionsData.questions]. intros Hin.
      apply in_map_iff in Hin. destruct Hin as (q0 & <- & _). repeat split.
    + intros [= _ <-]. cbn [QuestionsData.questions]. apply Hfallback.
  - intros [= _ <-]. cbn [QuestionsData.questions]. apply Hfallback.
Qed.

Lemma generate_questions_levels_witness :
  exists message result q,
    generate_questions
      (Some (fun _ _ _ _ _ =>
               Some [Question.mk (Some "Why?") None None None None (Some 5%Z) (Some 5%Z)
                       (Some "easy") None None None]))
      "2024-01-01T00:00:00"
      (Some (QuestionsRequest.mk (Some "Tea") None (Some 1%Z) (Some "expert") None))
    = Success message result /\
    In q (QuestionsData.questions result) /\
    Question.difficulty q = Some "expert" /\
    Question.points q = Some 200%Z /\
    Question.timeLimit q = Some 60%Z.
Proof.
  pose (q := Question.mk (Some "Why?") None None None None (Some 200%Z) (Some 60%Z)
               (Some "expert") None None None).
  pose (result :=
    QuestionsData.mk [q]
      [ ("topic", MStr "Tea"); ("type", MStr "multiple-choice"); ("count", MInt 1%Z);
        ("difficulty", MStr "expert"); ("source", MStr "openai");
        ("generatedAt", MStr "2024-01-01T00:00:00") ]).
  exists "Generated 1 questions", result, q.
  assert (Hrun :
    generate_questions
      (Some (fun _ _ _ _ _ =>
               Some [Question.mk (Some "Why?") None None None None (Some 5%Z) (Some 5%Z)
                       (Some "easy") None None None]))
      "2024-01-01T00:00:00"
      (Some (QuestionsRequest.mk (Some "Tea") None (Some 1%Z) (Some "expert") None))
    = Success "Generated 1 questions" result) by reflexivity.
  assert (Hin : In q (QuestionsData.questions result)) by (left; reflexivity).
  split; [exact Hrun|]. split; [exact Hin|].
  exact (generate_questions_levels _ _ _ _ _ _ Hrun Hin).
Defined.

(** ** Topic advisor *)

(** X17.  The topic analysis always lists five key areas, the first five
    aspects of the topic.  It suggests three resources when the classifier
    says Technology and two otherwise; the audience has four entries for
    Technology, Science, History and Business and the three general ones for
    Mathematics and General, which have no list of their own; the knowledge
    depth is High exactly when the topic has more than two words. *)
Theorem topic_analysis_shape (topic context : string) :
  Advisor.keyAreas (analyze_topic_content topic context)
  = generate_aspects_from_topic topic 5 /\
  List.length (Advisor.keyAreas (analyze_topic_content topic context)) = 5%nat /\
  List.length (Advisor.resources (analyze_topic_content topic context))
  = (if String.eqb (categorize_topic topic) "Technology" then 3%nat else 2%nat) /\
  (In (categorize_topic topic) ["Technology"; "Science"; "History"; "Business"] ->
   List.length (Advisor.targetAudience (analyze_topic_content topic context)) = 4%nat) /\
  (In (categorize_topic topic) ["Mathematics"; "General"] ->
   Advisor.targetAudience (analyze_topic_content topic context)
   = ["Students"; "General Public"; "Lifelong Learners"]) /\
  (Advisor.knowledgeDepth (Advisor.learningPotential (analyze_topic_content topic context))
   = "High" <-> (2 < List.length (PyStr.split topic))%nat).
Proof.
  unfold analyze_topic_content.
  cbn [Advisor.keyAreas Advisor.resources Advisor.targetAudience Advisor.learningPotential].
  split; [reflexivity|].
  split; [rewrite length_generate_aspects by lia; reflexivity|].
  pose proof (categorize_loop_range (PyStr.lower topic) categories) as Hrange.
  fold (categorize_topic topic) in Hrange. simpl in Hrange.
  split; [|split; [|split]].
  - repeat (destruct Hrange as [<- | Hrange]; [reflexivity|]). destruct Hrange.
  - intros Hin. simpl in Hin.
    repeat (destruct Hin as [<- | Hin]; [reflexivity|]). destruct Hin.
  - intros Hin. simpl in Hin.
    repeat (destruct Hin as [<- | Hin]; [reflexivity|]). destruct Hin.
  - unfold estimate_learning_potential. cbn [Advisor.knowledgeDepth].
    destruct (Nat.ltb_spec 2 (List.length (PyStr.split topic))); split;
      (reflexivity || discriminate || lia || tauto).
Qed.

(** ** Keywords of a context *)

Lemma ranked_spec (common_words words : list string) :
  NoDup (map fst (sorted_desc (count_words common_words words))) /\
  StronglySorted desc (sorted_desc (count_words common_words words)) /\
  forall w c,
    In (w, c) (sorted_desc (count_words common_words words)) <->
    In w words /\ ~ In w common_words /\ c = occurrences words w.
Proof.
  destruct (count_words_spec common_words words) as [Hnd Hentry].
  split; [|split].
  - apply (Permutation_NoDup (Permutation_map fst (sorted_desc_perm _))). exact Hnd.
  - apply sorted_desc_sorted.
  - intros w c. rewrite <- Hentry.
    split; apply Permutation_in; [apply Permutation_sym|]; apply sorted_desc_perm.
Qed.

(** The first [k] entries of a ranking: distinct words, each with its number of
    occurrences, in descending order, and no word left out occurs more often
    than one that is kept. *)
Lemma top_ranked (common_words words : list string) (k : nat) :
  let top := map fst (firstn k (sorted_desc (count_words common_words words))) in
  (List.length top <= k)%nat /\
  NoDup top /\
  (forall w, In w top -> In w words /\ ~ In w common_words) /\
  (forall i j wi wj,
      (i < j)%nat -> nth_error top i = Some wi -> nth_error top j = Some wj ->
      (occurrences words wj <= occurrences words wi)%Z) /\
  (forall w, In w words -> ~ In w common_words -> ~ In w top ->
             List.length top = k /\
             forall w', In w' top -> (occurrences words w <= occurrences words w')%Z).
Proof.
  intros top. subst top.
  destruct (ranked_spec common_words words) as (Hnd & Hsorted & Hentry).
  set (ranked := sorted_desc (count_words common_words words)) in *.
  assert (Hkept : forall w, In w (map fst (firstn k ranked)) ->
                    In (w, occurrences words w) (firstn k ranked)).
  { intros w Hw. apply in_map_iff in Hw. destruct Hw as ([w' c] & Hfst & Hin).
    simpl in Hfst. subst w'.
    pose proof (proj1 (Hentry w c) (In_firstn _ _ _ Hin)) as (_ & _ & ->). exact Hin. }
  split; [|split; [|split; [|split]]].
  - rewrite length_map. apply firstn_le_length.
  - rewrite <- firstn_map. now apply NoDup_firstn.
  - intros w Hw. apply Hkept, In_firstn, Hentry in Hw. tauto.
  - intros i j wi wj Hij Hi Hj.
    rewrite nth_error_map in Hi, Hj.
    destruct (nth_error (firstn k ranked) i) as [[wi' ci]|] eqn:Ei; [|discriminate].
    destruct (nth_error (firstn k ranked) j) as [[wj' cj]|] eqn:Ej; [|discriminate].
    simpl in Hi, Hj. injection Hi as ->. injection Hj as ->.
    apply nth_error_firstn_Some in Ei, Ej.
    pose proof (sorted_nth_error desc ranked Hsorted i j _ _ Hij Ei Ej) as Hdesc.
    apply nth_error_In, Hentry in Ei. apply nth_error_In, Hentry in Ej.
    destruct Ei as (_ & _ & ->). destruct Ej as (_ & _ & ->). exact Hdesc.
  - intros w Hwords Hcommon Hout.
    assert (Hin : In (w, occurrences words w) ranked) by (apply Hentry; tauto).
    rewrite <- (firstn_skipn k ranked) in Hin. apply in_app_or in Hin.
    destruct Hin as [Hin | Hin].
    + exfalso. apply Hout. now apply (in_map fst _ (w, occurrences words w)).
    + split.
      * rewrite length_map. apply firstn_length_le.
        apply In_skipn_length in Hin. lia.
      * intros w' Hw'. apply Hkept in Hw'.
        exact (sorted_firstn_skipn desc ranked Hsorted k _ _ Hw' Hin).
Qed.

(** X18.  The keywords of a context are the title-cased forms of at most ten
    distinct words of the lower-cased context, each a whole word of four or
    more letters that is not a common word, in descending order of their
    number of occurrences; a word of that kind that is left out occurs no more
    often than any that is kept.  The empty context has no keywords.  The
    fallback quiz appends them to its four fixed tags and reports the first
    five as [keywordsUsed]. *)
Theorem keywords_ranked (context : string) :
  (context = "" -> extract_keywords_from_context context = []) /\
  (exists words,
      extract_keywords_from_context context = map PyStr.title words /\
      (List.length words <= 10)%nat /\
      NoDup words /\
      (forall w, In w words ->
                 In w (PyStr.word_runs (PyStr.lower context)) /\
                 PyStr.all_chars PyStr.isalpha w = true /\
                 (4 <= String.length w)%nat /\
                 ~ In w ["this"; "that"; "with"; "from"; "have"; "were"; "their"; "which";
                         "about"]) /\
      (forall i j wi wj,
          (i < j)%nat -> nth_error words i = Some wi -> nth_error words j = Some wj ->
          (occurrences (findall_words4 (PyStr.lower context)) wj
           <= occurrences (findall_words4 (PyStr.lower context)) wi)%Z) /\
      (forall w,
          In w (findall_words4 (PyStr.lower context)) ->
          ~ In w ["this"; "that"; "with"; "from"; "have"; "were"; "their"; "which"; "about"] ->
          ~ In w words ->
          List.length words = 10%nat /\
          forall w', In w' words ->
                     (occurrences (findall_words4 (PyStr.lower context)) w
                      <= occurrences (findall_words4 (PyStr.lower context)) w')%Z)) /\
  forall rng topic difficulty n quiz_type,
    Quiz.tags (generate_enhanced_fallback_quiz rng topic difficulty n quiz_type context)
    = Some ([slug topic; difficulty; "educational"; "comprehensive"]
            ++ extract_keywords_from_context context)%list /\
    dict_get (get_or (Quiz.metadata
                        (generate_enhanced_fallback_quiz rng topic difficulty n quiz_type
                           context)) [])
             "keywordsUsed"
    = Some (MList (firstn 5 (extract_keywords_from_context context))).
Proof.
  split; [intros ->; reflexivity|]. split.
  - destruct (top_ranked
                ["this"; "that"; "with"; "from"; "have"; "were"; "their"; "which"; "about"]
                (findall_words4 (PyStr.lower context)) 10)
      as (Hlen & Hnd & Hin & Hdesc & Hout).
    destruct context as [|c context].
    + exists []. split; [reflexivity|]. split; [simpl; lia|]. split; [constructor|].
      split; [intros w []|]. split; [intros i j wi wj _ Hi; destruct i; discriminate Hi|].
      intros w Hw. destruct Hw.
    + eexists. split.
      * unfold extract_keywords_from_context. cbn [PyStr.nonempty negb].
        rewrite <- map_map. reflexivity.
      * split; [exact Hlen|]. split; [exact Hnd|]. split; [|split; [exact Hdesc | exact Hout]].
        intros w Hw. destruct (Hin w Hw) as [Hwords Hcommon].
        unfold findall_words4 in Hwords. apply filter_In in Hwords.
        destruct Hwords as [Hrun Hshape]. apply andb_true_iff in Hshape.
        destruct Hshape as [Halpha Hlong]. apply Nat.leb_le in Hlong. tauto.
  - intros rng topic difficulty n quiz_type. unfold generate_enhanced_fallback_quiz.
    cbn [Quiz.tags Quiz.metadata get_or].
    destruct context as [|c context]; split; reflexivity.
Qed.

(** ** Key themes *)

(** A word kept by the theme loop stands right after a word that is not an
    article, starts with a capital and has more than three characters. *)
Lemma themes_of_words_In (words : list string) :
  forall prev w,
    In w (themes_of_words prev words) ->
    head_isupper w = true /\ (3 < String.length w)%nat /\
    exists l1 before l2,
      (match prev with Some p => p :: words | None => words end)
      = (l1 ++ before :: w :: l2)%list /\
      ~ In before ["the"; "a"; "an"].
Proof.
  induction words as [|x words IH]; intros prev w Hin; [destruct Hin|].
  cbn [themes_of_words] in Hin. apply in_app_or in Hin. destruct Hin as [Hin | Hin].
  - destruct (head_isupper x) eqn:Hup; [|destruct Hin].
    destruct (Nat.ltb_spec 3 (String.length x)) as [Hlong|]; [|destruct Hin].
    destruct prev as [p|]; [|destruct Hin].
    cbn [andb] in Hin.
    destruct (PyStr.mem p ["the"; "a"; "an"]) eqn:Hmem; [destruct Hin|].
    destruct Hin as [<- | []].
    split; [exact Hup|]. split; [exact Hlong|].
    exists [], p, words. split; [reflexivity|].
    rewrite <- mem_spec. congruence.
  - destruct (IH (Some x) w Hin) as (Hup & Hlong & l1 & before & l2 & Heq & Hart).
    split; [exact Hup|]. split; [exact Hlong|].
    destruct prev as [p|].
    + exists (p :: l1), before, l2. split; [|exact Hart].
      cbn [app]. now rewrite <- Heq.
    + now exists l1, before, l2.
Qed.

Lemma flat_map_nil {A B : Type} (f : A -> list B) (l : list A) :
  (forall x, In x l -> f x = []) -> flat_map f l = [].
Proof.
  induction l as [|x l IH]; intros H; simpl; [reflexivity|].
  rewrite (H x) by now left. apply IH. intros y Hy. apply H. now right.
Qed.

(** X19.  Whatever order the set of themes is listed in, the analysis reports
    at most five key themes, and each of them is a word that starts with a
    capital, has more than three characters and stands, in one of the first
    fifty sentence pieces that has more than five words, right after a word
    that is not "the", "a" or "an".  A text without a sentence piece of more
    than five words has no key themes. *)
Theorem key_themes_from_text (round2 : float -> float)
    (set_order : list string -> list string) (text : string) (page_texts : list string) :
  (forall l x, In x (set_order l) -> In x l) ->
  (List.length (keyThemes (analyze_pdf_content round2 set_order text page_texts)) <= 5)%nat /\
  (forall theme,
      In theme (keyThemes (analyze_pdf_content round2 set_order text page_texts)) ->
      head_isupper theme = true /\ (3 < String.length theme)%nat /\
      exists sentence l1 before l2,
        In sentence (firstn 50 (split_sentences text)) /\
        (5 < List.length (PyStr.split sentence))%nat /\
        PyStr.split sentence = (l1 ++ before :: theme :: l2)%list /\
        ~ In before ["the"; "a"; "an"]) /\
  ((forall sentence, In sentence (split_sentences text) ->
                     (List.length (PyStr.split sentence) <= 5)%nat) ->
   keyThemes (analyze_pdf_content round2 set_order text page_texts) = []).
Proof.
  intros Hset. unfold analyze_pdf_content. cbn [keyThemes]. unfold extract_key_themes.
  set (themes := flat_map _ (firstn 50 (split_sentences text))).
  split; [apply firstn_le_length|]. split.
  - intros theme Hin. apply In_firstn, In_firstn, Hset in Hin.
    unfold themes in Hin. apply in_flat_map in Hin.
    destruct Hin as (sentence & Hsentence & Hin).
    destruct (Nat.ltb_spec 5 (List.length (PyStr.split sentence))) as [Hlong|]; [|destruct Hin].
    destruct (themes_of_words_In _ None theme Hin) as (Hup & Hlen & l1 & before & l2 & Heq & Hart).
    split; [exact Hup|]. split; [exact Hlen|].
    now exists sentence, l1, before, l2.
  - intros Hshort.
    assert (Hnone : themes = []).
    { unfold themes. apply flat_map_nil. intros sentence Hsentence.
      apply In_firstn in Hsentence.
      destruct (Nat.ltb_spec 5 (List.length (PyStr.split sentence))) as [Hlong|];
        [|reflexivity].
      specialize (Hshort sentence Hsentence). lia. }
    rewrite Hnone.
    destruct (set_order []) as [|x l] eqn:E; [reflexivity|].
    exfalso. apply (Hset [] x). rewrite E. now left.
Qed.

Lemma key_themes_from_text_witness :
  (forall (l : list string) (x : string), In x ((fun l => l) l) -> In x l) /\
  keyThemes (analyze_pdf_content (fun x => x) (fun l => l)
               "Greetings. ok then we met Marie Curie in the Paris lab" [])
  = ["Marie"; "Curie"] /\
  forall theme,
    In theme (keyThemes (analyze_pdf_content (fun x => x) (fun l => l)
                           "Greetings. ok then we met Marie Curie in the Paris lab" [])) ->
    head_isupper theme = true.
Proof.
  assert (Hset : forall (l : list string) (x : string), In x ((fun l => l) l) -> In x l)
    by (intros l x H; exact H).
  split; [exact Hset|]. split; [reflexivity|].
  intros theme Hin.
  exact (proj1 (proj1 (proj2 (key_themes_from_text (fun x => x) (fun l => l)
                                "Greetings. ok then we met Marie Curie in the Paris lab" []
                                Hset)) theme Hin)).
Defined.

(** ** Unrecognised difficulty, continued *)

(** X20.  With a difficulty that is none of easy, medium and hard the fallback
    quiz draws on three levels at once: its metadata gives the educational
    level "Intermediate" (as for medium) and the prerequisites "None" (as for
    easy), and the distractors of its questions are those of hard. *)
Theorem unknown_difficulty_metadata (rng : nat -> list string -> list string)
    (topic difficulty : string) (n : Z) (quiz_type context : string) :
  ~ In difficulty ["easy"; "medium"; "hard"] ->
  (exists metadata,
      Quiz.metadata (generate_enhanced_fallback_quiz rng topic difficulty n quiz_type context)
      = Some metadata /\
      dict_get metadata "educationalLevel" = Some (MStr "Intermediate") /\
      dict_get metadata "prerequisites" = Some (MStr "None")) /\
  get_educational_level "medium" = "Intermediate" /\
  get_educational_level "easy" <> "Intermediate" /\
  forall aspect,
    distractors_of aspect topic difficulty = distractors_of aspect topic "hard".
Proof.
  intros H.
  assert (He : difficulty <> "easy") by (intros ->; apply H; simpl; tauto).
  assert (Hm : difficulty <> "medium") by (intros ->; apply H; simpl; tauto).
  assert (Hh : difficulty <> "hard") by (intros ->; apply H; simpl; tauto).
  split; [|split; [reflexivity|split; [discriminate|]]].
  - assert (Hlevel : get_educational_level difficulty = "Intermediate").
    { unfold get_educational_level, dict_get_default.
      now rewrite (unknown_difficulty_get difficulty) by assumption. }
    assert (Hmem : PyStr.mem difficulty ["medium"; "hard"] = false).
    { apply not_true_false. rewrite mem_spec. simpl. intros [<- | [<- | []]]; congruence. }
    unfold generate_enhanced_fallback_quiz. cbn [Quiz.metadata].
    rewrite Hlevel, Hmem. eexists. split; [reflexivity|]. split; reflexivity.
  - intros aspect. unfold distractors_of.
    rewrite (proj2 (String.eqb_neq _ _) He), (proj2 (String.eqb_neq _ _) Hm).
    reflexivity.
Qed.

Lemma unknown_difficulty_metadata_witness :
  ~ In "expert" ["easy"; "medium"; "hard"] /\
  exists metadata,
    Quiz.metadata (generate_enhanced_fallback_quiz (fun _ l => l) "Tea" "expert" 1
                     "multiple-choice" "") = Some metadata /\
    dict_get metadata "educationalLevel" = Some (MStr "Intermediate") /\
    dict_get metadata "prerequisites" = Some (MStr "None").
Proof.
  assert (H : ~ In "expert" ["easy"; "medium"; "hard"]).
  { simpl. intros H. repeat (destruct H as [H | H]; [discriminate H|]). exact H. }
  split; [exact H|].
  exact (proj1 (unknown_difficulty_metadata (fun _ l => l) "Tea" "expert" 1
                  "multiple-choice" "" H)).
Defined.

(** ** Order of ties *)

Lemma keys_dict_set_app {V : Type} (d : list (string * V)) (k : string) (v : V) :
  exists extra, map fst (dict_set d k v) = (map fst d ++ extra)%list.
Proof.
  induction d as [|[k0 v0] d [extra IH]]; simpl.
  - now exists [k].
  - destruct (String.eqb k0 k); simpl.
    + exists []. now rewrite app_nil_r.
    + exists extra. now rewrite IH.
Qed.

Lemma count_loop_keys_app (common_words words : list string) :
  forall d : list (string * Z),
  exists extra,
    map fst
      (fold_left
         (fun word_counts word =>
            if PyStr.mem word common_words then word_counts
            else dict_set word_counts word (dict_get_default word_counts word 0 + 1)%Z)
         words d)
    = (map fst d ++ extra)%list.
Proof.
  induction words as [|w words IH]; intros d; cbn [fold_left].
  - exists []. now rewrite app_nil_r.
  - destruct (PyStr.mem w common_words); [apply IH|].
    destruct (IH (dict_set d w (dict_get_default d w 0 + 1)%Z)) as [extra ->].
    destruct (keys_dict_set_app d w (dict_get_default d w 0 + 1)%Z) as [extra' ->].
    exists (extra' ++ extra)%list. now rewrite app_assoc.
Qed.

Lemma count_words_app (common_words pre rest : list string) (w : string) :
  count_words common_words (pre ++ w :: rest)
  = fold_left
      (fun word_counts word =>
         if PyStr.mem word common_words then word_counts
         else dict_set word_counts word (dict_get_default word_counts word 0 + 1)%Z)
      rest
      (if PyStr.mem w common_words then count_words common_words pre
       else dict_set (count_words common_words pre) w
              (dict_get_default (count_words common_words pre) w 0 + 1)%Z).
Proof. unfold count_words. now rewrite fold_left_app. Qed.

(** The keys of the frequency table stand in the order in which the words
    are first seen. *)
Lemma count_words_first_seen (common_words pre rest : list string) (w1 w2 : string) :
  ~ In w1 common_words -> ~ In w2 pre -> w1 <> w2 ->
  In w2 (map fst (count_words common_words (pre ++ w1 :: rest))) ->
  before w1 w2 (map fst (count_words common_words (pre ++ w1 :: rest))).
Proof.
  intros Hcommon Hpre Hne.
  assert (Hmem : PyStr.mem w1 common_words = false)
    by (apply not_true_false; now rewrite mem_spec).
  rewrite count_words_app, Hmem.
  destruct (count_words_spec common_words pre) as [_ Htable].
  set (d1 := count_words common_words pre) in *.
  set (d2 := dict_set d1 w1 (dict_get_default d1 w1 0 + 1)%Z).
  assert (Hw1 : In w1 (map fst d2)) by (apply keys_dict_set; now left).
  assert (Hw2 : ~ In w2 (map fst d2)).
  { unfold d2. rewrite keys_dict_set. intros [H | H]; [congruence|].
    apply in_map_iff in H. destruct H as ([w c] & Hfst & H). simpl in Hfst. subst w.
    apply Htable in H. tauto. }
  destruct (count_loop_keys_app common_words rest d2) as [extra ->].
  intros Hin. apply in_app_or in Hin. destruct Hin as [Hin | Hin]; [contradiction|].
  apply in_split in Hw1. destruct Hw1 as (a & b & ->).
  apply in_split in Hin. destruct Hin as (e1 & e2 & ->).
  exists a, (b ++ e1)%list, e2. now rewrite <- !app_assoc.
Qed.

Lemma before_map {A B : Type} (f : A -> B) (x y : A) (l : list A) :
  before x y l -> before (f x) (f y) (map f l).
Proof.
  intros (l1 & l2 & l3 & ->). exists (map f l1), (map f l2), (map f l3).
  now rewrite map_app, (map_cons f x), map_app.
Qed.

Lemma before_entries {V : Type} (d : list (string * V)) (w1 w2 : string) :
  before w1 w2 (map fst d) ->
  exists v1 v2, before (w1, v1) (w2, v2) d.
Proof.
  intros (l1 & l2 & l3 & H).
  apply map_eq_app in H. destruct H as (d1 & d' & -> & <- & H).
  apply map_eq_cons in H. destruct H as ([k1 v1] & d'' & -> & Hk1 & H).
  apply map_eq_app in H. destruct H as (d2 & d''' & -> & <- & H).
  apply map_eq_cons in H. destruct H as ([k2 v2] & d3 & -> & Hk2 & <-).
  simpl in Hk1, Hk2. subst. now exists v1, v2, d1, d2, d3.
Qed.

Lemma filter_insert_desc (c : Z) (x : string * Z) (l : list (string * Z)) :
  filter (fun e => Z.eqb (snd e) c) (insert_desc x l)
  = filter (fun e => Z.eqb (snd e) c) (x :: l).
Proof.
  induction l as [|y l IH]; [reflexivity|].
  cbn [insert_desc]. destruct (Z.ltb_spec (snd x) (snd y)) as [Hlt|]; [|reflexivity].
  cbn [filter] in *. rewrite IH.
  destruct (Z.eqb_spec (snd x) c), (Z.eqb_spec (snd y) c); try reflexivity. lia.
Qed.

(** The sort is stable: the entries with a given count keep their order. *)
Lemma filter_sorted_desc (c : Z) (l : list (string * Z)) :
  filter (fun e => Z.eqb (snd e) c) (sorted_desc l) = filter (fun e => Z.eqb (snd e) c) l.
Proof.
  induction l as [|x l IH]; [reflexivity|].
  cbn [sorted_desc fold_right]. fold (sorted_desc l).
  rewrite filter_insert_desc. cbn [filter]. now rewrite IH.
Qed.

Lemma filter_eq_cons {A : Type} (p : A -> bool) (l : list A) :
  forall a x b,
    filter p l = (a ++ x :: b)%list ->
    exists la lb, l = (la ++ x :: lb)%list /\ filter p la = a /\ filter p lb = b.
Proof.
  induction l as [|y l IH]; intros a x b H.
  - destruct a; discriminate H.
  - cbn [filter] in H. destruct (p y) eqn:Hy.
    + destruct a as [|a0 a].
      * injection H as -> <-. exists [], l. cbn [filter app]. repeat split.
      * injection H as <- H. destruct (IH a x b H) as (la & lb & -> & <- & <-).
        exists (y :: la), lb. cbn [filter app]. now rewrite Hy.
    + destruct (IH a x b H) as (la & lb & -> & <- & <-).
      exists (y :: la), lb. cbn [filter app]. now rewrite Hy.
Qed.

Lemma before_filter {A : Type} (p : A -> bool) (x y : A) (l : list A) :
  before x y (filter p l) -> before x y l.
Proof.
  intros (l1 & l2 & l3 & H).
  apply filter_eq_cons in H. destruct H as (la & lb & -> & _ & H).
  apply filter_eq_cons in H. destruct H as (lc & ld & -> & _ & _).
  now exists la, lc, ld.
Qed.

Lemma filter_before {A : Type} (p : A -> bool) (x y : A) (l : list A) :
  p x = true -> p y = true -> before x y l -> before x y (filter p l).
Proof.
  intros Hx Hy (l1 & l2 & l3 & ->).
  exists (filter p l1), (filter p l2), (filter p l3).
  rewrite filter_app. cbn [filter]. rewrite Hx, filter_app. cbn [filter]. now rewrite Hy.
Qed.

Lemma sorted_desc_stable (x y : string * Z) (l : list (string * Z)) :
  snd x = snd y -> before x y l -> before x y (sorted_desc l).
Proof.
  intros Heq H.
  apply (before_filter (fun e => Z.eqb (snd e) (snd x))).
  rewrite filter_sorted_desc.
  apply filter_before; [apply Z.eqb_refl | apply Z.eqb_eq; congruence | exact H].
Qed.

Lemma before_firstn {A : Type} (k : nat) (x y : A) (l : list A) :
  NoDup l -> before x y l -> In y (firstn k l) -> before x y (firstn k l).
Proof.
  intros Hnd (l1 & l2 & l3 & ->) Hin.
  rewrite app_comm_cons, app_assoc in Hnd, Hin |- *.
  set (a := (l1 ++ x :: l2)%list) in *.
  assert (Hy : ~ In y a) by (apply NoDup_remove_2 in Hnd; intros H; apply Hnd, in_or_app; now left).
  rewrite firstn_app in Hin |- *. apply in_app_or in Hin.
  destruct Hin as [Hin | Hin]; [apply In_firstn in Hin; contradiction|].
  destruct (k - List.length a)%nat as [|m] eqn:Ek; [destruct Hin|].
  assert (Hk : (List.length a <= k)%nat) by lia.
  rewrite (firstn_all2 a Hk). cbn [firstn].
  exists l1, l2, (firstn m l3). unfold a. now rewrite <- app_assoc.
Qed.

(** Ties in a top-[k] ranking. *)
Lemma top_ranked_ties (common_words pre rest : list string) (w1 w2 : string) (k : nat) :
  ~ In w1 common_words -> ~ In w2 pre -> w1 <> w2 ->
  occurrences (pre ++ w1 :: rest) w1 = occurrences (pre ++ w1 :: rest) w2 ->
  In w2 (map fst (firstn k (sorted_desc (count_words common_words (pre ++ w1 :: rest))))) ->
  before w1 w2
    (map fst (firstn k (sorted_desc (count_words common_words (pre ++ w1 :: rest))))).
Proof.
  intros Hcommon Hpre Hne Hocc Hin.
  set (words := (pre ++ w1 :: rest)%list) in *.
  destruct (ranked_spec common_words words) as (Hnd & _ & Hentry).
  destruct (count_words_spec common_words words) as [_ Htable].
  rewrite <- firstn_map in Hin |- *.
  apply before_firstn; [exact Hnd | | exact Hin].
  assert (Hkey : In w2 (map fst (count_words common_words words))).
  { apply In_firstn in Hin. apply in_map_iff in Hin.
    destruct Hin as ([w c] & Hfst & Hin). simpl in Hfst. subst w.
    apply Hentry, Htable in Hin. now apply (in_map fst _ (w2, c)). }
  pose proof (count_words_first_seen common_words pre rest w1 w2 Hcommon Hpre Hne Hkey)
    as Hbefore.
  fold words in Hbefore.
  apply before_entries in Hbefore. destruct Hbefore as (c1 & c2 & Hbefore).
  assert (Hc : c1 = c2).
  { destruct Hbefore as (l1 & l2 & l3 & Heq).
    assert (H1 : In (w1, c1) (count_words common_words words))
      by (rewrite Heq; apply in_or_app; right; now left).
    assert (H2 : In (w2, c2) (count_words common_words words)).
    { rewrite Heq. apply in_or_app. right. right. apply in_or_app. right. now left. }
    apply Htable in H1, H2. destruct H1 as (_ & _ & ->). destruct H2 as (_ & _ & ->).
    exact Hocc. }
  subst c2.
  exact (before_map fst _ _ _ (sorted_desc_stable (w1, c1) (w2, c1) _ eq_refl Hbefore)).
Qed.

(** X21.  Ties are broken by the order of first appearance: when two
    capitalized words occur equally often and one is seen first in the text,
    it stands before the other in the potential topics whenever the other
    is listed; the same holds for the keywords of a context. *)
Theorem ties_keep_first_seen_order (w1 w2 : string) (pre rest : list string) :
  ~ In w2 pre -> w1 <> w2 ->
  occurrences (pre ++ w1 :: rest) w1 = occurrences (pre ++ w1 :: rest) w2 ->
  (forall text,
      findall_capitalized text = (pre ++ w1 :: rest)%list ->
      ~ In w1 topic_common_words ->
      In w2 (extract_potential_topics text) ->
      before w1 w2 (extract_potential_topics text)) /\
  (forall context,
      findall_words4 (PyStr.lower context) = (pre ++ w1 :: rest)%list ->
      ~ In w1 ["this"; "that"; "with"; "from"; "have"; "were"; "their"; "which"; "about"] ->
      In w2 (map fst (firstn 10 (sorted_desc
               (count_words
                  ["this"; "that"; "with"; "from"; "have"; "were"; "their"; "which"; "about"]
                  (findall_words4 (PyStr.lower context)))))) ->
      before (PyStr.title w1) (PyStr.title w2) (extract_keywords_from_context context)).
Proof.
  intros Hpre Hne Hocc. split.
  - intros text Hwords Hcommon Hin. unfold extract_potential_topics in *.
    rewrite Hwords in *. now apply top_ranked_ties.
  - intros context Hwords Hcommon Hin.
    assert (Hctx : PyStr.nonempty context = true).
    { destruct context; [|reflexivity]. destruct pre; discriminate Hwords. }
    unfold extract_keywords_from_context. rewrite Hctx. cbn [negb].
    rewrite Hwords in *. rewrite <- map_map.
    apply (before_map PyStr.title). now apply top_ranked_ties.
Qed.

Lemma ties_keep_first_seen_order_witness :
  before "Beta" "Alpha" (extract_potential_topics "Beta Alpha. Gamma Beta! Alpha") /\
  extract_potential_topics "Beta Alpha. Gamma Beta! Alpha" = ["Beta"; "Alpha"; "Gamma"].
Proof.
  split; [|reflexivity].
  assert (Hpre : ~ In "Alpha" (@nil string)) by (intros []).
  assert (Hne : "Beta" <> "Alpha") by discriminate.
  assert (Hocc : occurrences ([] ++ "Beta" :: ["Alpha"; "Gamma"; "Beta"; "Alpha"]) "Beta"
                 = occurrences ([] ++ "Beta" :: ["Alpha"; "Gamma"; "Beta"; "Alpha"]) "Alpha")
    by reflexivity.
  apply (proj1 (ties_keep_first_seen_order "Beta" "Alpha" []
                  ["Alpha"; "Gamma"; "Beta"; "Alpha"] Hpre Hne Hocc)
           "Beta Alpha. Gamma Beta! Alpha").
  - reflexivity.
  - unfold topic_common_words. simpl. intros H.
    repeat (destruct H as [H | H]; [discriminate H|]). exact H.
  - right. left. reflexivity.
Defined.
